(** * PDF_QA_Bot: the gateway relays and the frontend store, embedded in Rocq

    The repository holds three copies of the Express gateway and a React
    frontend.  Each copy is embedded in a module of its own, handler by
    handler, as a function on an explicit [World]:

    - [Legacy]     : src/server.js
    - [Gateway]    : the session-aware copy, lines 75-362 of
                     src/frontend/src/components/DocumentUploader.jsx
    - [Conflicted] : the half-merged copy, lines 362-768 of the same file
    - [RateLimiter]: src/unnamed/part_004 (middleware/rateLimiter.js)
    - [Frontend]   : src/frontend/src/App.js and src/unnamed/part_001

    JavaScript values are the JSON values plus [undefined]; numbers are
    the integers ([Z]), which is all the handlers compute with; a string
    is held as its UTF-8 bytes. *)

From Stdlib Require Import Ascii String ZArith.
From stdpp Require Import gmap strings list pretty.

Set Warnings "-register-all".
Open Scope Z_scope.

(** ** JavaScript values *)

Inductive JsVal : Type :=
| VUndefined
| VNull
| VBool (b : bool)
| VNum (n : Z)
| VStr (s : string)
| VArr (items : list JsVal)
| VObj (fields : list (string * JsVal)).

(** [!!v] of JavaScript: the falsy values are undefined, null, false, 0
    and the empty string. *)
Definition truthy (v : JsVal) : bool :=
  match v with
  | VUndefined | VNull => false
  | VBool b => b
  | VNum n => negb (n =? 0)
  | VStr s => negb (String.eqb s "")
  | VArr _ | VObj _ => true
  end.

(** [a || b] *)
Definition js_or (a b : JsVal) : JsVal := if truthy a then a else b.

Fixpoint assoc (k : string) (fields : list (string * JsVal)) : JsVal :=
  match fields with
  | [] => VUndefined
  | (k', v) :: rest => if String.eqb k k' then v else assoc k rest
  end.

(** [s.length], which counts UTF-16 code units: one for a code point of
    up to three bytes, two for one of four. *)
Fixpoint utf16_length (s : string) : nat :=
  match s with
  | EmptyString => 0
  | String c rest =>
      let n := nat_of_ascii c in
      ((if n <? 128 then 1 else if n <? 192 then 0 else if n <? 240 then 1 else 2)
       + utf16_length rest)%nat
  end.

(** [o.k]: [None] is the TypeError raised on undefined and null. *)
Definition member (o : JsVal) (k : string) : option JsVal :=
  match o with
  | VUndefined | VNull => None
  | VObj fields => Some (assoc k fields)
  | VArr items =>
      Some (if String.eqb k "length" then VNum (Z.of_nat (length items)) else VUndefined)
  | VStr s =>
      Some (if String.eqb k "length" then VNum (Z.of_nat (utf16_length s)) else VUndefined)
  | VBool _ | VNum _ => Some VUndefined
  end.

(** [o?.k] *)
Definition opt_member (o : JsVal) (k : string) : JsVal :=
  match member o k with
  | Some v => v
  | None => VUndefined
  end.

(** [v === n] for a number literal [n]. *)
Definition strict_eq_num (v : JsVal) (n : Z) : bool :=
  match v with
  | VNum m => m =? n
  | _ => false
  end.

(** ** White space

    The white space of ECMAScript (WhiteSpace and LineTerminator), which
    [trim] and the conversion of a string to a number strip: U+0009 to
    U+000D, U+0020, U+00A0, U+1680, U+2000 to U+200A, U+2028, U+2029,
    U+202F, U+205F, U+3000 and U+FEFF.  [space_width s] is the number of
    bytes of the white-space character [s] starts with, 0 when it starts
    with none. *)
Definition three_byte_space (x y z : nat) : bool :=
  ((x =? 225) && (y =? 154) && (z =? 128)
   || (x =? 226) && (y =? 128)
      && ((128 <=? z) && (z <=? 138) || (z =? 168) || (z =? 169) || (z =? 175))
   || (x =? 226) && (y =? 129) && (z =? 159)
   || (x =? 227) && (y =? 128) && (z =? 128)
   || (x =? 239) && (y =? 187) && (z =? 191))%nat.

Definition space_width (s : string) : nat :=
  match s with
  | String a rest =>
      let x := nat_of_ascii a in
      if ((x =? 32) || (9 <=? x) && (x <=? 13))%nat then 1%nat
      else match rest with
           | String b rest' =>
               let y := nat_of_ascii b in
               if ((x =? 194) && (y =? 160))%nat then 2%nat
               else match rest' with
                    | String c _ =>
                        if three_byte_space x y (nat_of_ascii c) then 3%nat else 0%nat
                    | EmptyString => 0%nat
                    end
           | EmptyString => 0%nat
           end
  | EmptyString => 0%nat
  end.

(** [s] is white space from end to end: [s.trim()] is the empty string. *)
Fixpoint only_spaces (s : string) : bool :=
  match s with
  | EmptyString => true
  | String _ r1 =>
      match space_width s with
      | 1%nat => only_spaces r1
      | 2%nat => match r1 with
                 | String _ r2 => only_spaces r2
                 | EmptyString => false
                 end
      | 3%nat => match r1 with
                 | String _ (String _ r3) => only_spaces r3
                 | _ => false
                 end
      | _ => false
      end
  end.

(** [s] without the white space it starts with. *)
Fixpoint skip_spaces (s : string) : string :=
  match s with
  | EmptyString => EmptyString
  | String _ r1 =>
      match space_width s with
      | 1%nat => skip_spaces r1
      | 2%nat => match r1 with
                 | String _ r2 => skip_spaces r2
                 | EmptyString => s
                 end
      | 3%nat => match r1 with
                 | String _ (String _ r3) => skip_spaces r3
                 | _ => s
                 end
      | _ => s
      end
  end.

(** The characters of [s] up to its first white space, and what follows
    them. *)
Fixpoint token (s : string) : string * string :=
  match s with
  | EmptyString => (EmptyString, EmptyString)
  | String a r =>
      if (0 <? space_width s)%nat then (EmptyString, s)
      else let '(t, rest) := token r in (String a t, rest)
  end.

(** ** Numbers as [<] sees them

    A value that is not a number is converted before it is compared
    (ToPrimitive, then ToNumber).  The outcome is NaN, an infinity, or the
    decimal [m * 10^e]. *)
Inductive Number :=
| NaN
| Infinite (negative : bool)
| Finite (m e : Z).

Definition digit_of (base : Z) (c : ascii) : option Z :=
  let n := Z.of_nat (nat_of_ascii c) in
  let d := if (48 <=? n) && (n <=? 57) then n - 48
           else if (97 <=? n) && (n <=? 102) then n - 87
           else if (65 <=? n) && (n <=? 70) then n - 55
           else base in
  if d <? base then Some d else None.

(** The digits [s] starts with, read in [base] after the number [acc]:
    the number read, how many digits there were, and what follows them. *)
Fixpoint digits (base acc : Z) (count : nat) (s : string) : Z * nat * string :=
  match s with
  | EmptyString => (acc, count, s)
  | String c r =>
      match digit_of base c with
      | Some d => digits base (acc * base + d) (S count) r
      | None => (acc, count, s)
      end
  end.

(** An optional sign: 1 or -1, and what follows it. *)
Definition sign (s : string) : Z * string :=
  match s with
  | String "+" r => (1, r)
  | String "-" r => (-1, r)
  | _ => (1, s)
  end.

(** StrUnsignedDecimalLiteral: [Infinity], or digits, a point, digits and
    an exponent, with a digit at least before or after the point. *)
Definition unsigned_decimal (s : string) : Number :=
  if String.eqb s "Infinity" then Infinite false
  else
    let '(m1, n1, r1) := digits 10 0 0 s in
    let '(m2, n2, r2) := match r1 with
                         | String "." r => digits 10 m1 0 r
                         | _ => (m1, 0%nat, r1)
                         end in
    if (n1 + n2 =? 0)%nat then NaN
    else match r2 with
         | EmptyString => Finite m2 (- Z.of_nat n2)
         | String c r3 =>
             if Ascii.eqb c "e" || Ascii.eqb c "E" then
               let '(sg, r4) := sign r3 in
               let '(x, n3, r5) := digits 10 0 0 r4 in
               match n3, r5 with
               | S _, EmptyString => Finite m2 (sg * x - Z.of_nat n2)
               | _, _ => NaN
               end
             else NaN
         end.

Definition negate (x : Number) : Number :=
  match x with
  | NaN => NaN
  | Infinite b => Infinite (negb b)
  | Finite m e => Finite (- m) e
  end.

(** A literal in base 2, 8 or 16, after its prefix. *)
Definition integer_in (base : Z) (s : string) : Number :=
  match digits base 0 0 s with
  | (m, S _, EmptyString) => Finite m 0
  | _ => NaN
  end.

(** StringToNumber: white space is stripped at both ends; the empty
    string is 0; what is no numeric literal is NaN. *)
Definition string_to_number (s : string) : Number :=
  let '(t, rest) := token (skip_spaces s) in
  if negb (only_spaces rest) then NaN
  else match t with
       | EmptyString => Finite 0 0
       | String "0" (String p r) =>
           if Ascii.eqb p "x" || Ascii.eqb p "X" then integer_in 16 r
           else if Ascii.eqb p "o" || Ascii.eqb p "O" then integer_in 8 r
           else if Ascii.eqb p "b" || Ascii.eqb p "B" then integer_in 2 r
           else unsigned_decimal t
       | String "+" r => unsigned_decimal r
       | String "-" r => negate (unsigned_decimal r)
       | _ => unsigned_decimal t
       end.

Definition has_key (k : string) (fields : list (string * JsVal)) : bool :=
  existsb (fun kv => String.eqb k (fst kv)) fields.

Fixpoint join_texts (l : list (option string)) : option string :=
  match l with
  | [] => Some EmptyString
  | [x] => x
  | x :: rest =>
      match x, join_texts rest with
      | Some a, Some b => Some (a +:+ "," +:+ b)
      | _, _ => None
      end
  end.

(** ToString, [None] for the TypeError of an object that cannot be
    converted: an array is its elements joined by commas, null and
    undefined among them empty; an object parsed from JSON is
    "[object Object]", unless it has a member [toString] of its own,
    which is not callable. *)
Fixpoint to_text (v : JsVal) : option string :=
  match v with
  | VUndefined => Some "undefined"
  | VNull => Some "null"
  | VBool b => Some (if b then "true" else "false")
  | VNum n => Some (pretty n)
  | VStr s => Some s
  | VArr items =>
      join_texts (map (fun x => match x with
                                | VUndefined | VNull => Some EmptyString
                                | _ => to_text x
                                end) items)
  | VObj fields => if has_key "toString" fields then None else Some "[object Object]"
  end.

(** ToNumber after ToPrimitive, [None] for the TypeError. *)
Definition to_number (v : JsVal) : option Number :=
  match v with
  | VUndefined => Some NaN
  | VNull => Some (Finite 0 0)
  | VBool b => Some (Finite (if b then 1 else 0) 0)
  | VNum n => Some (Finite n 0)
  | VStr s => Some (string_to_number s)
  | VArr _ | VObj _ => string_to_number <$> to_text v
  end.

(** Half the distance from the whole number [n], 0 < n < 2^52, to the
    double before it, as the [j] of [2^-j]: a decimal is rounded to the
    nearest double before it is compared, and one nearer to [n] than that
    is [n]. *)
Definition half_gap_below (n : Z) : Z :=
  let k := Z.log2 n in
  if n =? 2 ^ k then 54 - k else 53 - k.

(** [x < n] for a whole number [n], 0 < n < 2^52. *)
Definition below (x : Number) (n : Z) : bool :=
  match x with
  | NaN => false
  | Infinite negative => negative
  | Finite m e =>
      let j := half_gap_below n in
      if 0 <=? e then m * 10 ^ e * 2 ^ j <? n * 2 ^ j - 1
      else m * 2 ^ j <? (n * 2 ^ j - 1) * 10 ^ (- e)
  end.

(** [v < n] for a number literal [n], 0 < n < 2^52; [None] is the
    TypeError of a [v] that cannot be converted. *)
Definition lt_num (v : JsVal) (n : Z) : option bool :=
  match v with
  | VNum m => Some (m <? n)
  | _ => (fun x => below x n) <$> to_number v
  end.

(** [JSON.stringify] as [res.json] applies it: members that are undefined
    are dropped from objects and become null in arrays. *)
Fixpoint to_json (v : JsVal) : JsVal :=
  match v with
  | VArr l =>
      VArr (map (fun x => match to_json x with VUndefined => VNull | y => y end) l)
  | VObj fs =>
      VObj (omap (fun kv => match to_json (snd kv) with
                            | VUndefined => None
                            | y => Some (fst kv, y)
                            end) fs)
  | _ => v
  end.

(** ** HTTP, the upstream RAG service, the console *)

Record Response := mkResponse {
  status : Z;
  headers : list (string * string);
  body : JsVal
}.

(** What axios rejects with: [err.code], [err.response] (status and data,
    present when the upstream answered outside 2xx) and [err.message].
    A plain exception is an error with neither code nor response. *)
Record AxiosError := mkAxiosError {
  err_code : option string;
  err_response : option (Z * JsVal);
  err_message : string
}.

Inductive Upstream :=
| UpOk (st : Z) (data : JsVal)
| UpFail (e : AxiosError).

(** [err.response?.data || err.message] *)
Definition error_detail (e : AxiosError) : JsVal :=
  js_or (match err_response e with
         | Some (_, d) => d
         | None => VUndefined
         end)
        (VStr (err_message e)).

Inductive Payload :=
| PJson (v : JsVal)
| PMultipart (field : string) (path : string) (filename : option string).

Record Call := mkCall {
  call_method : string;
  call_url : string;
  call_payload : Payload;
  call_timeout : option Z
}.

Inductive Level := LogInfo | LogWarn | LogError.

Record LogEntry := mkLog {
  log_level : Level;
  log_text : string;
  log_detail : option JsVal
}.

(** ** Server-side sessions *)

Inductive Role := user | assistant.

Record ChatMsg := mkMsg { role : Role; content : JsVal }.

Record Session := mkSession {
  currentSessionId : JsVal;
  chatHistory : option (list ChatMsg)
}.

(** The session express-session hands to the first request of a cookie. *)
Definition fresh_session : Session :=
  {| currentSessionId := VUndefined; chatHistory := None |}.

(** ** The world a handler runs in

    [script] is what the upstream will answer, call by call; [unlink_fault]
    is the error code the operating system raises on unlinking a file that
    exists ([None]: it lets the file go).  The rest is state the handlers
    change: the session store keyed by cookie, the files on disk, the open
    read streams, the console, the calls made upstream, the response sent
    and the exceptions nobody caught. *)
Record World := mkWorld {
  script : list Upstream;
  unlink_fault : option string;
  sessions : gmap string Session;
  disk : gset string;
  streams : list string;
  console : list LogEntry;
  outbox : list Call;
  sent : option Response;
  uncaught : list string
}.

Definition set_script (x : list Upstream) (w : World) : World :=
  mkWorld x (unlink_fault w) (sessions w) (disk w) (streams w) (console w)
          (outbox w) (sent w) (uncaught w).
Definition set_sessions (x : gmap string Session) (w : World) : World :=
  mkWorld (script w) (unlink_fault w) x (disk w) (streams w) (console w)
          (outbox w) (sent w) (uncaught w).
Definition set_disk (x : gset string) (w : World) : World :=
  mkWorld (script w) (unlink_fault w) (sessions w) x (streams w) (console w)
          (outbox w) (sent w) (uncaught w).
Definition set_streams (x : list string) (w : World) : World :=
  mkWorld (script w) (unlink_fault w) (sessions w) (disk w) x (console w)
          (outbox w) (sent w) (uncaught w).
Definition set_console (x : list LogEntry) (w : World) : World :=
  mkWorld (script w) (unlink_fault w) (sessions w) (disk w) (streams w) x
          (outbox w) (sent w) (uncaught w).
Definition set_outbox (x : list Call) (w : World) : World :=
  mkWorld (script w) (unlink_fault w) (sessions w) (disk w) (streams w)
          (console w) x (sent w) (uncaught w).
Definition set_sent (x : option Response) (w : World) : World :=
  mkWorld (script w) (unlink_fault w) (sessions w) (disk w) (streams w)
          (console w) (outbox w) x (uncaught w).
Definition set_uncaught (x : list string) (w : World) : World :=
  mkWorld (script w) (unlink_fault w) (sessions w) (disk w) (streams w)
          (console w) (outbox w) (sent w) x.

(** A request as it reaches the server: nothing sent, nothing thrown. *)
Definition incoming (w : World) : World := set_uncaught [] (set_sent None w).

(** [console.error(text, detail)] and friends append to the console. *)
Definition console_log (l : Level) (text : string) (detail : option JsVal)
    (w : World) : World :=
  set_console (console w ++ [mkLog l text detail]) w.

(** [res.status(st).json(b)].  A second send on the same response throws
    ERR_HTTP_HEADERS_SENT and leaves what was sent. *)
Definition send (st : Z) (b : JsVal) (w : World) : World :=
  match sent w with
  | None => set_sent (Some (mkResponse st [] (to_json b))) w
  | Some _ => set_uncaught (uncaught w ++ ["ERR_HTTP_HEADERS_SENT"]) w
  end.

(** [await axios.post(url, payload, {timeout})]: the call leaves, and the
    next answer of the script comes back; an exhausted script is an
    upstream that refuses the connection. *)
Definition refused : AxiosError :=
  mkAxiosError (Some "ECONNREFUSED") None "connect ECONNREFUSED".

Definition axios (method url : string) (p : Payload) (timeout : option Z)
    (w : World) : Upstream * World :=
  let w' := set_outbox (outbox w ++ [mkCall method url p timeout]) w in
  match script w with
  | [] => (UpFail refused, w')
  | r :: rest => (r, set_script rest w')
  end.

(** express-session with [saveUninitialized: true]: the request of a cookie
    the store does not know gets a fresh session, stored under the cookie. *)
Definition session_mw (cookie : string) (w : World) : World :=
  match sessions w !! cookie with
  | Some _ => w
  | None => set_sessions (<[cookie := fresh_session]> (sessions w)) w
  end.

Definition error_body (msg : string) : JsVal := VObj [("error", VStr msg)].

(** ** Node's [path] module, POSIX flavour *)

Module Path.

Definition sep : string := "/".

Definition is_sep (c : ascii) : bool := Ascii.eqb c "/"%char.

(** [s.split("/")] *)
Fixpoint split (s : string) : list string :=
  match s with
  | EmptyString => [EmptyString]
  | String c rest =>
      if is_sep c then EmptyString :: split rest
      else match split rest with
           | seg :: segs => String c seg :: segs
           | [] => [String c EmptyString]
           end
  end.

Definition isAbsolute (s : string) : bool :=
  match s with
  | String c _ => is_sep c
  | EmptyString => false
  end.

(** The normalisation of an absolute path: empty and [.] segments go,
    [..] drops the segment before it and is itself dropped at the root.
    [stack] holds the segments kept so far, last first. *)
Fixpoint normalize (stack segs : list string) : list string :=
  match segs with
  | [] => rev stack
  | seg :: rest =>
      if String.eqb seg "" || String.eqb seg "." then normalize stack rest
      else if String.eqb seg ".." then normalize (tail stack) rest
      else normalize (seg :: stack) rest
  end.

Fixpoint render_segs (segs : list string) : string :=
  match segs with
  | [] => EmptyString
  | seg :: rest => sep +:+ seg +:+ render_segs rest
  end.

Definition render (segs : list string) : string :=
  match segs with
  | [] => sep
  | _ => render_segs segs
  end.

(** The segments of [path.resolve(p)] in a process whose working
    directory is [cwd]. *)
Definition segments (cwd p : string) : list string :=
  normalize [] (if isAbsolute p then split p else split cwd ++ split p).

(** [path.resolve(p)] *)
Definition resolve (cwd p : string) : string := render (segments cwd p).

(** [path.resolve(a, b)]: the arguments are taken from the right until
    the path is absolute. *)
Definition resolve2 (cwd a b : string) : string :=
  if isAbsolute b then resolve cwd b else resolve cwd (a +:+ sep +:+ b).

(** [path.join(a, b)] for an absolute [a] and a [b] without a trailing
    separator, which is how the gateways call it. *)
Definition join (a b : string) : string :=
  render (normalize [] (split (a +:+ sep +:+ b))).

(** [p] lies in directory [dir] (or is [dir]): the segments of [dir] lead
    the segments of [p]. *)
Definition within (dir p : list string) : Prop := dir `prefix_of` p.

End Path.

(** ** What all gateways share *)

(** The process: [__dirname], [process.cwd()] and the environment. *)
Record Config := mkConfig {
  dirname : string;
  cwd : string;
  env_RAG_SERVICE_URL : option string
}.

(** [process.env.X || fallback] *)
Definition env_or (x : option string) (fallback : string) : string :=
  match x with
  | Some s => if String.eqb s "" then fallback else s
  | None => fallback
  end.

(** [req.file] as multer fills it in. *)
Record File := mkFile {
  file_path : string;
  originalname : string;
  size : Z
}.

Definition type_error (what : string) : AxiosError :=
  mkAxiosError None None ("TypeError: " +:+ what).

(** [fs.createReadStream(p)] and [stream.destroy()] *)
Definition createReadStream (p : string) (w : World) : World :=
  set_streams (p :: streams w) w.

Fixpoint close_stream (p : string) (open : list string) : list string :=
  match open with
  | [] => []
  | q :: rest => if String.eqb q p then rest else q :: close_stream p rest
  end.

Definition destroy (p : string) (w : World) : World :=
  set_streams (close_stream p (streams w)) w.

(** What unlinking [p] comes back with: [None] on success, otherwise the
    error code and message.  A path that is not on the disk is ENOENT. *)
Definition unlink_result (p : string) (w : World) : option (string * string) :=
  if decide (p ∈ disk w) then
    match unlink_fault w with
    | None => None
    | Some code => Some (code, code +:+ ": unlink " +:+ p)
    end
  else Some ("ENOENT", "ENOENT: no such file or directory, unlink " +:+ p).

Definition unlink_disk (p : string) (w : World) : World :=
  match unlink_result p w with
  | None => set_disk (disk w ∖ {[p]}) w
  | Some _ => w
  end.

(** ** The session-aware gateway
    (src/frontend/src/components/DocumentUploader.jsx, lines 75-362) *)

Module Gateway.

Definition RAG_URL (cfg : Config) : string :=
  env_or (env_RAG_SERVICE_URL cfg) "http://localhost:5000".
Definition UPLOAD_TIMEOUT_MS : Z := 180000.
Definition ASK_TIMEOUT_MS : Z := 180000.
Definition SUMMARIZE_TIMEOUT_MS : Z := 180000.
Definition COMPARE_TIMEOUT_MS : Z := 180000.
Definition HEALTH_CHECK_TIMEOUT_MS : Z := 5000.
Definition SESSION_MAX_AGE_MS : Z := 1000 * 60 * 60 * 24.
Definition RATE_LIMIT_WINDOW_MS : Z := 15 * 60 * 1000.
Definition UPLOAD_LIMIT : Z := 5.
Definition ASK_LIMIT : Z := 30.
Definition SUMMARIZE_LIMIT : Z := 10.
Definition COMPARE_LIMIT : Z := 10.

(** The options [makeLimiter] hands to express-rate-limit. *)
Record LimiterOptions := mkOptions {
  windowMs : Z;
  max : Z;
  message : string;
  standardHeaders : bool;
  legacyHeaders : bool
}.

Definition makeLimiter (max : Z) (msg : string) : LimiterOptions :=
  {| windowMs := RATE_LIMIT_WINDOW_MS;
     max := max;
     message := msg;
     standardHeaders := true;
     legacyHeaders := false |}.

Definition uploadLimiter := makeLimiter UPLOAD_LIMIT "Too many PDF uploads, try again later.".
Definition askLimiter := makeLimiter ASK_LIMIT "Too many questions, try again later.".
Definition summarizeLimiter := makeLimiter SUMMARIZE_LIMIT "Too many summarization requests.".
Definition compareLimiter := makeLimiter COMPARE_LIMIT "Too many comparison requests.".

(** [path.resolve(__dirname, "uploads")] *)
Definition UPLOAD_DIR (cfg : Config) : string :=
  Path.resolve2 (cwd cfg) (dirname cfg) "uploads".

(** multer's disk storage: the file name is [Date.now() + "-" +
    file.originalname], and multer stores the file under
    [path.join(destination, filename)], which is [req.file.path]. *)
Definition filename (now : Z) (original : string) : string :=
  pretty now +:+ "-" +:+ original.

Definition stored_path (cfg : Config) (now : Z) (original : string) : string :=
  Path.join (UPLOAD_DIR cfg) (filename now original).

(** GET /readyz *)
Definition readyz (cfg : Config) (w : World) : World :=
  let not_ready e w :=
    send 503 (VObj [("status", VStr "not ready");
                    ("service", VStr "pdf-qa-gateway");
                    ("dependencies", VObj [("rag_service", VStr "unreachable")])])
         (console_log LogError "[/readyz] RAG service health check failed:"
                      (Some (VStr (err_message e))) w) in
  let '(r, w1) := axios "GET" (RAG_URL cfg +:+ "/healthz") (PJson VUndefined)
                        (Some HEALTH_CHECK_TIMEOUT_MS) w in
  match r with
  | UpOk st _ =>
      if st =? 200 then
        send 200 (VObj [("status", VStr "ready");
                        ("service", VStr "pdf-qa-gateway");
                        ("dependencies", VObj [("rag_service", VStr "healthy")])]) w1
      else not_ready (mkAxiosError None None "RAG service returned non-200 status") w1
  | UpFail e => not_ready e w1
  end.

(** The [catch] of POST /upload. *)
Definition upload_failed (e : AxiosError) (w : World) : World :=
  send 500 (error_body "Failed to process file. Please try again.")
       (console_log LogError "[/upload] File processing failed:"
                    (Some (error_detail e)) w).

(** The callback of [fs.unlink] in the [finally] of POST /upload. *)
Definition unlink_callback (err : option (string * string)) (w : World) : World :=
  match err with
  | Some (code, msg) =>
      if negb (String.eqb code "ENOENT")
      then console_log LogWarn ("[/upload] Failed to delete file: " +:+ msg) None w
      else w
  | None => w
  end.

(** The [finally] of POST /upload: the stream is destroyed, the file is
    unlinked.  [fs.unlink] is asynchronous; the world returned is the one
    in which it has run and its callback has been called. *)
Definition upload_finally (filePath : string) (w : World) : World :=
  let w1 := destroy filePath w in
  unlink_callback (unlink_result filePath w1) (unlink_disk filePath w1).

(** The guard of POST /upload against path traversal:
    [!filePath.startsWith(uploadDirResolved + path.sep) &&
     filePath !== uploadDirResolved] *)
Definition escapes (uploadDirResolved filePath : string) : bool :=
  negb (String.prefix (uploadDirResolved +:+ Path.sep) filePath)
  && negb (String.eqb filePath uploadDirResolved).

(** The [try] and the [catch] of POST /upload: the file is streamed to the
    upstream; its answer binds the upstream's session to the caller's. *)
Definition upload_try (cfg : Config) (cookie filePath : string) (w : World)
    : World :=
  let w1 := createReadStream filePath w in
  let '(r, w2) := axios "POST" (RAG_URL cfg +:+ "/upload")
                        (PMultipart "file" filePath None)
                        (Some UPLOAD_TIMEOUT_MS) w1 in
  match r with
  | UpOk _ data =>
      match member data "session_id", member data "message" with
      | Some sid, Some msg =>
          let w' :=
            match sessions w2 !! cookie with
            | Some _ =>
                set_sessions
                  (<[cookie := mkSession sid (Some [])]> (sessions w2)) w2
            | None => w2
            end in
          send 200 (VObj [("message", msg); ("session_id", sid)]) w'
      | _, _ =>
          upload_failed (type_error "Cannot read properties of undefined") w2
      end
  | UpFail e => upload_failed e w2
  end.

(** POST /upload, after the limiter and multer. *)
Definition upload (cfg : Config) (cookie : string) (file : option File)
    (w : World) : World :=
  match file with
  | None => send 400 (error_body "No file uploaded.") w
  | Some f =>
      if String.eqb (file_path f) "" then send 400 (error_body "No file uploaded.") w
      else
        let filePath := Path.resolve (cwd cfg) (file_path f) in
        let uploadDirResolved := Path.resolve (cwd cfg) (UPLOAD_DIR cfg) in
        if escapes uploadDirResolved filePath then
          send 400 (error_body "Invalid file path.")
               (console_log LogError "[/upload] Path traversal attempt detected:"
                            (Some (VStr filePath)) w)
        else upload_finally filePath (upload_try cfg cookie filePath w)
  end.

Definition upload_route (cfg : Config) (cookie : string) (file : option File)
    (w : World) : World :=
  upload cfg cookie file (session_mw cookie (incoming w)).

(** [!session_ids || session_ids.length === 0] *)
Definition no_documents (session_ids : JsVal) : bool :=
  negb (truthy session_ids) || strict_eq_num (opt_member session_ids "length") 0.

(** [!session_ids || session_ids.length < 2]; [None] is the TypeError of
    a length that cannot be converted to a number. *)
Definition too_few_documents (session_ids : JsVal) : option bool :=
  if negb (truthy session_ids) then Some true
  else lt_num (opt_member session_ids "length") 2.

(** The [catch] shared by the three query relays. *)
Definition relay_failed (tag msg : string) (e : AxiosError) (w : World) : World :=
  send 500 (error_body msg) (console_log LogError tag (Some (error_detail e)) w).

(** POST /ask, after the limiter. *)
Definition ask (cfg : Config) (req_body : JsVal) (w : World) : World :=
  match member req_body "question", member req_body "session_ids" with
  | Some question, Some session_ids =>
      if negb (truthy question) then
        send 400 (error_body "Question is required.") w
      else if no_documents session_ids then
        send 400 (error_body "At least one document (session_id) is required.") w
      else
        let '(r, w1) :=
          axios "POST" (RAG_URL cfg +:+ "/ask")
                (PJson (to_json (VObj [("question", question);
                                       ("session_ids", session_ids)])))
                (Some ASK_TIMEOUT_MS) w in
        match r with
        | UpOk _ data => send 200 data w1
        | UpFail e =>
            relay_failed "[/ask] Question processing failed:"
                         "Failed to process question. Please try again." e w1
        end
  | _, _ => set_uncaught (uncaught w ++ ["TypeError"]) w
  end.

(** POST /summarize, after the limiter. *)
Definition summarize (cfg : Config) (req_body : JsVal) (w : World) : World :=
  match member req_body "session_ids" with
  | Some session_ids =>
      if no_documents session_ids then
        send 400 (error_body "At least one document (session_id) is required.") w
      else
        let '(r, w1) :=
          axios "POST" (RAG_URL cfg +:+ "/summarize")
                (PJson (to_json (VObj [("session_ids", session_ids)])))
                (Some SUMMARIZE_TIMEOUT_MS) w in
        match r with
        | UpOk _ data => send 200 data w1
        | UpFail e =>
            relay_failed "[/summarize] Summarization failed:"
                         "Failed to summarize documents. Please try again." e w1
        end
  | None => set_uncaught (uncaught w ++ ["TypeError"]) w
  end.

(** POST /compare, after the limiter.  The test of the documents is made
    before the [try]: a TypeError in it leaves the handler uncaught. *)
Definition compare (cfg : Config) (req_body : JsVal) (w : World) : World :=
  match member req_body "session_ids" with
  | Some session_ids =>
      match too_few_documents session_ids with
      | Some true =>
          send 400 (error_body "At least 2 documents are required for comparison.") w
      | Some false =>
          let '(r, w1) :=
            axios "POST" (RAG_URL cfg +:+ "/compare")
                  (PJson (to_json (VObj [("session_ids", session_ids)])))
                  (Some COMPARE_TIMEOUT_MS) w in
          match r with
          | UpOk _ data => send 200 data w1
          | UpFail e =>
              relay_failed "[/compare] Comparison failed:"
                           "Failed to compare documents. Please try again." e w1
          end
      | None => set_uncaught (uncaught w ++ ["TypeError"]) w
      end
  | None => set_uncaught (uncaught w ++ ["TypeError"]) w
  end.

(** The three query relays behind the session middleware, for a request
    the limiter lets through. *)
Definition ask_route (cfg : Config) (cookie : string) (req_body : JsVal)
    (w : World) : World :=
  ask cfg req_body (session_mw cookie (incoming w)).

Definition summarize_route (cfg : Config) (cookie : string) (req_body : JsVal)
    (w : World) : World :=
  summarize cfg req_body (session_mw cookie (incoming w)).

Definition compare_route (cfg : Config) (cookie : string) (req_body : JsVal)
    (w : World) : World :=
  compare cfg req_body (session_mw cookie (incoming w)).

End Gateway.

(** ** The first gateway (src/server.js) *)

Module Legacy.

Definition RAG_SERVICE_URL (cfg : Config) : string :=
  env_or (env_RAG_SERVICE_URL cfg) "http://localhost:5000".

(** POST /upload.  [req.file.path] of an absent file is a TypeError,
    thrown inside the [try]. *)
Definition upload (cfg : Config) (file : option File) (w : World) : World :=
  match file with
  | None => send 500 (error_body "Upload failed") w
  | Some f =>
      let filePath := Path.join (dirname cfg) (file_path f) in
      let '(r, w1) := axios "POST" (RAG_SERVICE_URL cfg +:+ "/process-pdf")
                            (PJson (VObj [("filePath", VStr filePath)])) None w in
      match r with
      | UpOk _ data =>
          match member data "doc_id" with
          | Some doc_id => send 200 (VObj [("doc_id", doc_id)]) w1
          | None => send 500 (error_body "Upload failed") w1
          end
      | UpFail _ => send 500 (error_body "Upload failed") w1
      end
  end.

(** POST /ask and POST /summarize: no [try]; a failed call is a rejection
    nobody handles, and no response is sent. *)
Definition forward (url : string) (req_body : JsVal) (w : World) : World :=
  let '(r, w1) := axios "POST" url (PJson (to_json req_body)) None w in
  match r with
  | UpOk _ data => send 200 data w1
  | UpFail e => set_uncaught (uncaught w1 ++ [err_message e]) w1
  end.

Definition ask (cfg : Config) (req_body : JsVal) (w : World) : World :=
  forward (RAG_SERVICE_URL cfg +:+ "/ask") req_body w.

Definition summarize (cfg : Config) (req_body : JsVal) (w : World) : World :=
  forward (RAG_SERVICE_URL cfg +:+ "/summarize") req_body w.

(** POST /compare *)
Definition compare (cfg : Config) (req_body : JsVal) (w : World) : World :=
  let failed e w :=
    send 500 (error_body "Error comparing documents")
         (console_log LogError "" (Some (error_detail e)) w) in
  let '(r, w1) := axios "POST" (RAG_SERVICE_URL cfg +:+ "/compare")
                        (PJson (to_json req_body)) None w in
  match r with
  | UpOk _ data =>
      match member data "comparison" with
      | Some c => send 200 (VObj [("comparison", c)]) w1
      | None => failed (type_error "Cannot read properties of undefined") w1
      end
  | UpFail e => failed e w1
  end.

End Legacy.

(** ** The half-merged gateway
    (src/frontend/src/components/DocumentUploader.jsx, lines 362-768)

    The merge left the first POST /upload handler interleaved with lines
    of /healthz and /readyz, and the [try] of POST /ask with the upstream
    call of both its parents.  A handler is read statement by statement in
    the order of the text; the lines of the other routes inside /upload
    are skipped. *)

Module Conflicted.

Definition RAG_URL (cfg : Config) : string :=
  env_or (env_RAG_SERVICE_URL cfg) "http://localhost:5000".
Definition ASK_TIMEOUT_MS : Z := 180000.

(** The [catch] of the first POST /upload (lines 515-545).  Its last
    line, 545, declares [const filePath] in the block of the [catch]: the
    [filePath] read at line 517, the first statement of the block, is
    that constant before its initialisation.  The read throws a
    ReferenceError out of the [catch]: nothing of the block runs, no
    response is sent. *)
Definition upload_catch (w : World) : World :=
  set_uncaught
    (uncaught w ++ ["ReferenceError: Cannot access 'filePath' before initialization"]) w.

(** The first POST /upload (lines 456-457, 477-481, 493-545). *)
Definition upload (cfg : Config) (file : option File) (w : World) : World :=
  match file with
  | None => send 400 (error_body "No file uploaded. Use form field name 'file'.") w
  | Some f =>
      let filePath := Path.join (dirname cfg) (file_path f) in
      if decide (filePath ∈ disk w) then
        let w1 := console_log LogInfo
                    ("Processing PDF: " +:+ originalname f +:+ " ("
                     +:+ pretty (size f) +:+ " bytes)") None w in
        let '(r, w2) := axios "POST" "http://localhost:5000/process-pdf"
                              (PJson (VObj [("filePath", VStr filePath)]))
                              (Some 60000) w1 in
        match r with
        | UpOk _ _ =>
            send 200 (VObj [("message", VStr "PDF uploaded & processed successfully!");
                            ("filename", VStr (originalname f));
                            ("size", VNum (size f))]) w2
        | UpFail _ => upload_catch w2
        end
      else send 500 (error_body "File upload failed - file not found on disk") w
  end.

Definition role_name (r : Role) : string :=
  match r with
  | user => "user"
  | assistant => "assistant"
  end.

Definition msg_json (m : ChatMsg) : JsVal :=
  VObj [("role", VStr (role_name (role m))); ("content", content m)].

(** [req.session.chatHistory.push(m)] on the session of [cookie]. *)
Definition push (cookie : string) (m : ChatMsg) (w : World) : World :=
  match sessions w !! cookie with
  | Some s =>
      set_sessions
        (<[cookie := mkSession (currentSessionId s)
                               (Some (default [] (chatHistory s) ++ [m]))]>
           (sessions w)) w
  | None => w
  end.

Definition ask_failed (e : AxiosError) (w : World) : World :=
  send 500 (error_body "Failed to process question. Please try again.")
       (console_log LogError "[/ask] Question processing failed:"
                    (Some (error_detail e)) w).

(** The [try] of POST /ask declares [const response] twice: at line 625
    for the call of the session-aware gateway (lines 283-287 of the other
    copy), at line 642 for the call that carries the chat history.  Two
    declarations of a constant in one block are refused when the file is
    loaded, so the handler as it stands never runs; it is read once for
    each declaration kept, the other and its call left out. *)
Inductive Kept :=
| plain_call
| history_call.

(** Lines 648-654, and 659 past the [try]: the answer is pushed, the
    upstream's body is relayed, and the stray [res.json] of /clear-history
    finds the response sent. *)
Definition relay_answer (cookie : string) (data : JsVal) (w : World) : World :=
  match member data "answer" with
  | None => ask_failed (type_error "Cannot read properties of undefined") w
  | Some answer =>
      let w1 := push cookie (mkMsg assistant answer) w in
      let w2 := send 200 data w1 in
      send 200 (VObj [("message", VStr "History cleared")]) w2
  end.

(** POST /ask (lines 614-660). *)
Definition ask (kept : Kept) (cfg : Config) (cookie : string) (req_body : JsVal)
    (w : World) : World :=
  match member req_body "question", member req_body "session_ids" with
  | Some question, Some session_ids =>
      if negb (truthy question) then
        send 400 (error_body "Question is required.") w
      else if Gateway.no_documents session_ids then
        send 400 (error_body "At least one document (session_id) is required.") w
      else
        match kept with
        | plain_call =>
            let '(r, w1) :=
              axios "POST" (RAG_URL cfg +:+ "/ask")
                    (PJson (to_json (VObj [("question", question);
                                           ("session_ids", session_ids)])))
                    (Some ASK_TIMEOUT_MS) w in
            match r with
            | UpFail e => ask_failed e w1
            | UpOk _ data =>
                match sessions w1 !! cookie with
                | None =>
                    ask_failed (type_error "Cannot read properties of undefined") w1
                | Some _ =>
                    relay_answer cookie data (push cookie (mkMsg user question) w1)
                end
            end
        | history_call =>
            match sessions w !! cookie with
            | None => ask_failed (type_error "Cannot read properties of undefined") w
            | Some s =>
                let w1 := push cookie (mkMsg user question) w in
                let history :=
                  default [] (chatHistory s) ++ [mkMsg user question] in
                let '(r, w2) :=
                  axios "POST" "http://localhost:5000/ask"
                        (PJson (to_json (VObj [("question", question);
                                               ("session_ids", session_ids);
                                               ("history", VArr (map msg_json history))])))
                        None w1 in
                match r with
                | UpFail e => ask_failed e w2
                | UpOk _ data => relay_answer cookie data w2
                end
            end
        end
  | _, _ => set_uncaught (uncaught w ++ ["TypeError"]) w
  end.

Definition ask_route (kept : Kept) (cfg : Config) (cookie : string)
    (req_body : JsVal) (w : World) : World :=
  ask kept cfg cookie req_body (session_mw cookie (incoming w)).

(** POST /clear-history (lines 662-668) *)
Definition clear_history (cookie : string) (w : World) : World :=
  let w1 :=
    match sessions w !! cookie with
    | Some s =>
        set_sessions (<[cookie := mkSession (currentSessionId s) (Some [])]>
                        (sessions w)) w
    | None => w
    end in
  send 200 (VObj [("message", VStr "History cleared")]) w1.

Definition clear_history_route (cookie : string) (w : World) : World :=
  clear_history cookie (session_mw cookie (incoming w)).

End Conflicted.

(** ** The rate limiters (src/unnamed/part_004, middleware/rateLimiter.js) *)

Module RateLimiter.

Definition GLOBAL_WINDOW_MS : Z := 15 * 60 * 1000.
Definition UPLOAD_WINDOW_MS : Z := 30 * 60 * 1000.
Definition QUERY_WINDOW_MS : Z := 60 * 1000.

Definition GLOBAL_LIMIT : Z := 200.
Definition UPLOAD_LIMIT : Z := 10.
Definition ASK_LIMIT : Z := 20.
Definition SUMMARIZE_LIMIT : Z := 10.
Definition COMPARE_LIMIT : Z := 10.

Record Options := mkOptions {
  windowMs : Z;
  max : Z;
  standardHeaders : bool;
  legacyHeaders : bool
}.

(** A limiter is its options and the handler called on a request over
    the limit, which gets the options and the response under way. *)
Record Limiter := mkLimiter {
  options : Options;
  handler : Options → Response → Response
}.

(** [Math.ceil(ms / 1000)] *)
Definition ceil_seconds (ms : Z) : Z := - ((- ms) / 1000).

(** The name of a header counts without regard to case: Node's
    [setHeader] and [getHeader] look it up in lower case. *)
Definition lower_char (c : ascii) : ascii :=
  let n := nat_of_ascii c in
  if ((65 <=? n) && (n <=? 90))%nat then ascii_of_nat (n + 32) else c.

Fixpoint lower (s : string) : string :=
  match s with
  | EmptyString => EmptyString
  | String c rest => String (lower_char c) (lower rest)
  end.

Definition same_name (a b : string) : bool := String.eqb (lower a) (lower b).

(** [res.set(name, value)]: the header is replaced if it is there. *)
Fixpoint drop_header (name : string) (hs : list (string * string))
    : list (string * string) :=
  match hs with
  | [] => []
  | (k, v) :: rest =>
      if same_name k name then drop_header name rest
      else (k, v) :: drop_header name rest
  end.

Definition set_header (name value : string) (res : Response) : Response :=
  mkResponse (status res) (drop_header name (headers res) ++ [(name, value)])
             (body res).

Fixpoint lookup_header (name : string) (hs : list (string * string))
    : option string :=
  match hs with
  | [] => None
  | (k, v) :: rest => if same_name k name then Some v else lookup_header name rest
  end.

(** [res.get(name)] *)
Definition get_header (name : string) (res : Response) : option string :=
  lookup_header name (headers res).

(** [res.status(st).json(b)] on the response under way.  [headers] holds
    what the limiter and its handler set; the headers Express adds to
    describe the body when it sends it ([express_writes]) are not kept in
    the model. *)
Definition json (st : Z) (b : JsVal) (res : Response) : Response :=
  mkResponse st (headers res) (to_json b).

Definition express_writes (name : string) : bool :=
  existsb (same_name name) ["Content-Type"; "Content-Length"; "ETag"].

(** The [handler] of [buildLimiter]. *)
Definition limit_handler (message : string) (opts : Options) (res : Response)
    : Response :=
  let retryAfterSeconds := ceil_seconds (windowMs opts) in
  json 429
       (VObj [("error", VStr "Too Many Requests");
              ("message", VStr message);
              ("retryAfter", VNum retryAfterSeconds)])
       (set_header "Retry-After" (pretty retryAfterSeconds) res).

Definition buildLimiter (windowMs max : Z) (message : string) : Limiter :=
  {| options := {| windowMs := windowMs;
                   max := max;
                   standardHeaders := true;
                   legacyHeaders := false |};
     handler := limit_handler message |}.

Definition globalLimiter := buildLimiter GLOBAL_WINDOW_MS GLOBAL_LIMIT
  "Too many requests from this IP. Please wait 15 minutes before retrying.".
Definition uploadLimiter := buildLimiter UPLOAD_WINDOW_MS UPLOAD_LIMIT
  "Upload limit reached. You may upload up to 10 PDFs per 30-minute window.".
Definition askLimiter := buildLimiter QUERY_WINDOW_MS ASK_LIMIT
  "Query limit reached. You may ask up to 20 questions per minute.".
Definition summarizeLimiter := buildLimiter QUERY_WINDOW_MS SUMMARIZE_LIMIT
  "Summarization limit reached. You may request up to 10 summaries per minute.".
Definition compareLimiter := buildLimiter QUERY_WINDOW_MS COMPARE_LIMIT
  "Comparison limit reached. You may request up to 10 comparisons per minute.".

(** The counter of one client: the requests counted in the running
    window, and the time the window ends. *)
Record Counter := mkCounter { hits : Z; resetTime : Z }.

(** Modelled from the spec: the counting of express-rate-limit, a
    dependency whose code is not in the repository.  "Fixed-window
    request counters per client IP"; "per-(route-class, client-IP) count
    within a fixed time window; reset when the window elapses". *)
Definition increment (opts : Options) (ip : string) (now : Z)
    (store : gmap string Counter) : Counter :=
  match store !! ip with
  | Some c =>
      if resetTime c <=? now then mkCounter 1 (now + windowMs opts)
      else mkCounter (hits c + 1) (resetTime c)
  | None => mkCounter 1 (now + windowMs opts)
  end.

(** What is left of the window of counter [c] at time [now]. *)
Definition remaining_ms (c : Counter) (now : Z) : Z := resetTime c - now.

(** Modelled from the spec: the headers express-rate-limit writes before
    it calls the handler.  "Standard rate-limit response headers are
    emitted; legacy headers are not" (the options decide, and the source
    names the two families [RateLimit-*] and [X-RateLimit-*]); the
    [Retry-After] it writes is "computed from the remaining window". *)
Definition library_headers (opts : Options) (c : Counter) (now : Z)
    : list (string * string) :=
  (if standardHeaders opts then
     [("RateLimit-Limit", pretty (max opts));
      ("RateLimit-Remaining", pretty (Z.max 0 (max opts - hits c)));
      ("RateLimit-Reset", pretty (ceil_seconds (remaining_ms c now)))]
   else [])
  ++ (if legacyHeaders opts then
        [("X-RateLimit-Limit", pretty (max opts));
         ("X-RateLimit-Remaining", pretty (Z.max 0 (max opts - hits c)))]
      else []).

Inductive Verdict :=
| Next (hs : list (string * string))
| Limited (res : Response).

(** Modelled from the spec: the middleware [rateLimit(options)] returns.
    "On exceeding the configured maximum within the window" the handler
    of the options answers; below it the request goes on. *)
Definition rateLimit (l : Limiter) (ip : string) (now : Z)
    (store : gmap string Counter) : Verdict * gmap string Counter :=
  let opts := options l in
  let c := increment opts ip now store in
  let hs := library_headers opts c now in
  let store' := <[ip := c]> store in
  if max opts <? hits c then
    let under_way :=
      set_header "Retry-After" (pretty (ceil_seconds (remaining_ms c now)))
                 (mkResponse 200 hs VUndefined) in
    (Limited (handler l opts under_way), store')
  else (Next hs, store').

(** The requests of one client at the times [times], one after the
    other: the verdict of the last one. *)
Fixpoint run (l : Limiter) (ip : string) (times : list Z)
    (store : gmap string Counter) : option Verdict * gmap string Counter :=
  match times with
  | [] => (None, store)
  | now :: rest =>
      let '(v, store') := rateLimit l ip now store in
      match rest with
      | [] => (Some v, store')
      | _ => run l ip rest store'
      end
  end.

Definition is_standard (h : string * string) : bool := String.prefix "RateLimit-" h.1.
Definition is_legacy (h : string * string) : bool := String.prefix "X-RateLimit-" h.1.

End RateLimiter.

(** ** The frontend store (src/frontend/src/App.js, src/unnamed/part_001)

    The state of [App] and the browser's [localStorage].  An event handler
    runs to its end, then React renders and runs the effects whose
    dependencies were set; a handler that awaits the gateway is one step,
    with the gateway's reply given.  The in-flight flags ([uploading],
    [asking], ...) are false again at the end of every step and are left
    out.  A stored value stands for its JSON text: [JSON.parse] gives back
    what [JSON.stringify] was given. *)

Module Frontend.

Definition THEME_STORAGE_KEY : string := "pdf-qa-bot-theme".

Inductive Speaker := speaker_user | speaker_bot.

Record Line := mkLine { line_role : Speaker; text : string }.

Record Pdf := mkPdf {
  name : string;
  doc_id : option string;
  session_id : string;
  url : string
}.

Inductive Stored :=
| SBool (b : bool)
| SChat (l : list Line)
| SPdfs (l : list Pdf).

Record App := mkApp {
  file : option string;
  pdfs : list Pdf;
  selectedSessions : list string;
  chatHistory : list Line;
  comparisonResult : option string;
  question : string;
  darkMode : bool;
  localStorage : gmap string Stored
}.

Definition set_file x a := mkApp x (pdfs a) (selectedSessions a) (chatHistory a)
  (comparisonResult a) (question a) (darkMode a) (localStorage a).
Definition setPdfs x a := mkApp (file a) x (selectedSessions a) (chatHistory a)
  (comparisonResult a) (question a) (darkMode a) (localStorage a).
Definition setSelectedSessions x a := mkApp (file a) (pdfs a) x (chatHistory a)
  (comparisonResult a) (question a) (darkMode a) (localStorage a).
Definition setChatHistory x a := mkApp (file a) (pdfs a) (selectedSessions a) x
  (comparisonResult a) (question a) (darkMode a) (localStorage a).
Definition setComparisonResult x a := mkApp (file a) (pdfs a) (selectedSessions a)
  (chatHistory a) x (question a) (darkMode a) (localStorage a).
Definition setQuestion x a := mkApp (file a) (pdfs a) (selectedSessions a)
  (chatHistory a) (comparisonResult a) x (darkMode a) (localStorage a).
Definition setDarkMode x a := mkApp (file a) (pdfs a) (selectedSessions a)
  (chatHistory a) (comparisonResult a) (question a) x (localStorage a).
Definition set_storage x a := mkApp (file a) (pdfs a) (selectedSessions a)
  (chatHistory a) (comparisonResult a) (question a) (darkMode a) x.

(** The effects, each run by React when its dependency was set. *)
Definition theme_effect (a : App) : App :=
  set_storage (<[THEME_STORAGE_KEY := SBool (darkMode a)]> (localStorage a)) a.
Definition chat_effect (a : App) : App :=
  set_storage (<["chatHistory" := SChat (chatHistory a)]> (localStorage a)) a.
Definition pdfs_effect (a : App) : App :=
  set_storage (<["pdfs" := SPdfs (pdfs a)]> (localStorage a)) a.

(** [saved ? JSON.parse(saved) : false] *)
Definition saved_theme (storage : gmap string Stored) : bool :=
  match storage !! THEME_STORAGE_KEY with
  | Some (SBool b) => b
  | _ => false
  end.

(** The first render and its effects, in the order of the text: the
    theme is written, the saved chat and documents are read, the empty
    chat and document list are written, and the render that follows
    writes back what was read. *)
Definition mount (storage : gmap string Stored) : App :=
  let a0 := mkApp None [] [] [] None "" (saved_theme storage) storage in
  let a1 := theme_effect a0 in
  let savedChat := localStorage a1 !! "chatHistory" in
  let savedPdfs := localStorage a1 !! "pdfs" in
  let a2 := pdfs_effect (chat_effect a1) in
  let a3 := match savedChat with
            | Some (SChat l) => chat_effect (setChatHistory l a2)
            | _ => a2
            end in
  match savedPdfs with
  | Some (SPdfs l) => pdfs_effect (setPdfs l a3)
  | _ => a3
  end.

(** [!s.trim()] *)
Definition blank (s : string) : bool := only_spaces s.

Inductive Reply (A : Type) :=
| Ok (a : A)
| Failed.
Arguments Ok {A} a.
Arguments Failed {A}.

(** [uploadPDF]; [u] is the object URL the browser makes for the file. *)
Definition uploadPDF (reply : Reply (option string * string)) (u : string)
    (a : App) : App :=
  match file a with
  | None => a
  | Some f =>
      match reply with
      | Ok (d, s) => set_file None (pdfs_effect (setPdfs (pdfs a ++ [mkPdf f d s u]) a))
      | Failed => a
      end
  end.

Definition includes (x : string) (l : list string) : bool :=
  existsb (String.eqb x) l.

Definition toggleDocSelection (s : string) (a : App) : App :=
  let a1 := setComparisonResult None a in
  setSelectedSessions
    (if includes s (selectedSessions a1)
     then List.filter (λ id, negb (String.eqb id s)) (selectedSessions a1)
     else selectedSessions a1 ++ [s]) a1.

Definition say (who : Speaker) (t : string) (a : App) : App :=
  chat_effect (setChatHistory (chatHistory a ++ [mkLine who t]) a).

Definition askQuestion (reply : Reply string) (a : App) : App :=
  if blank (question a) || Nat.eqb (length (selectedSessions a)) 0 then a
  else
    let a1 := setQuestion "" (say speaker_user (question a) a) in
    match reply with
    | Ok answer => say speaker_bot answer a1
    | Failed => say speaker_bot "Error getting answer." a1
    end.

Definition summarizePDF (reply : Reply string) (a : App) : App :=
  if Nat.eqb (length (selectedSessions a)) 0 then a
  else match reply with
       | Ok summary => say speaker_bot summary a
       | Failed => a
       end.

Definition compareDocuments (reply : Reply string) (a : App) : App :=
  if Nat.ltb (length (selectedSessions a)) 2 then a
  else match reply with
       | Ok comparison => setComparisonResult (Some comparison) a
       | Failed => a
       end.

(** The [onClick] of the Clear History button, then the effects of the
    chat and of the document list, both set by it. *)
Definition clearHistory (a : App) : App :=
  let a1 := setSelectedSessions [] (setPdfs [] (setChatHistory [] a)) in
  let a2 := set_storage ∅ a1 in
  pdfs_effect (chat_effect a2).

(** The [onChange] of the Dark switch: [setDarkMode(!darkMode)]. *)
Definition toggleTheme (a : App) : App :=
  theme_effect (setDarkMode (negb (darkMode a)) a).

Inductive Action :=
| PickFile (f : option string)
| TypeQuestion (q : string)
| Upload (reply : Reply (option string * string)) (u : string)
| ToggleDoc (s : string)
| Ask (reply : Reply string)
| Summarize (reply : Reply string)
| Compare (reply : Reply string)
| ClearHistory
| ToggleTheme.

Definition step (a : App) (act : Action) : App :=
  match act with
  | PickFile f => set_file f a
  | TypeQuestion q => setQuestion q a
  | Upload reply u => uploadPDF reply u a
  | ToggleDoc s => toggleDocSelection s a
  | Ask reply => askQuestion reply a
  | Summarize reply => summarizePDF reply a
  | Compare reply => compareDocuments reply a
  | ClearHistory => clearHistory a
  | ToggleTheme => toggleTheme a
  end.

Definition run (a : App) (acts : list Action) : App := foldl step a acts.

Definition toggles_theme (act : Action) : bool :=
  match act with
  | ToggleTheme => true
  | _ => false
  end.

Definition clears_history (act : Action) : bool :=
  match act with
  | ClearHistory => true
  | _ => false
  end.

(** The theme preference as persisted. *)
Definition persisted_theme (a : App) : option Stored :=
  localStorage a !! THEME_STORAGE_KEY.

End Frontend.


(** ** Vocabulary of the properties, and sample runs *)

(** A member that is missing, null or the empty string. *)
Definition no_text (v : JsVal) : Prop := v = VUndefined ∨ v = VNull ∨ v = VStr "".

(** A list member of at most [n] elements, the missing one included. *)
Definition short_list (n : nat) (v : JsVal) : Prop :=
  v = VUndefined ∨ v = VNull ∨ ∃ l, v = VArr l ∧ (length l ≤ n)%nat.

(** A gateway installed in /srv/app, no environment set. *)
Definition cfg0 : Config := mkConfig "/srv/app" "/srv/app" None.

(** A world at rest whose upstream will answer [answers]. *)
Definition quiet (answers : list Upstream) : World :=
  mkWorld answers None ∅ ∅ [] [] [] None [].

(** The same with the files [files] on the disk. *)
Definition holding (files : gset string) (answers : list Upstream) : World :=
  set_disk files (quiet answers).

(** An upstream that answers 500 with a body of its own. *)
Definition upstream_trace : JsVal :=
  VObj [("detail", VStr "Traceback: faiss index /data/idx missing, key sk-live-1f")].

Definition upstream_500 : Upstream :=
  UpFail (mkAxiosError (Some "ERR_BAD_RESPONSE") (Some (500, upstream_trace))
                       "Request failed with status code 500").


(** A segment without a separator in it. *)
Fixpoint no_sep (s : string) : Prop :=
  match s with
  | EmptyString => True
  | String c rest => Path.is_sep c = false ∧ no_sep rest
  end.

(** A segment as normalisation leaves them: not empty, no separator. *)
Definition clean (s : string) : Prop := s ≠ "" ∧ no_sep s.

(** A string that is empty or starts with the separator: what follows a
    segment in a rendered path. *)
Definition at_boundary (s : string) : Prop :=
  match s with
  | EmptyString => True
  | String c _ => Path.is_sep c = true
  end.

(** The segments of the upload directory as the guard of POST /upload
    resolves it. *)
Definition upload_dir_segments (cfg : Config) : list string :=
  Path.segments (cwd cfg) (Gateway.UPLOAD_DIR cfg).


(** An upload that gets past the two guards of POST /upload. *)
Definition admitted (cfg : Config) (f : File) : Prop :=
  file_path f ≠ ""
  ∧ Gateway.escapes (Path.resolve (cwd cfg) (Gateway.UPLOAD_DIR cfg))
                    (Path.resolve (cwd cfg) (file_path f)) = false.

(** The chat history of the session of [cookie], empty when there is no
    session or no history yet. *)
Definition history_of (cookie : string) (w : World) : list ChatMsg :=
  default [] (sessions w !! cookie ≫= chatHistory).

(** An /ask that passes validation: a question and at least a document. *)
Definition well_formed_ask (req_body question session_ids : JsVal) : Prop :=
  member req_body "question" = Some question
  ∧ member req_body "session_ids" = Some session_ids
  ∧ truthy question = true
  ∧ Gateway.no_documents session_ids = false.

Definition sample_ask : JsVal :=
  VObj [("question", VStr "What is the total?"); ("session_ids", VArr [VStr "s1"])].



(** The response sent has status [st]. *)
Definition answered (st : Z) (w : World) : Prop := status <$> sent w = Some st.



(** What a limiter of [buildLimiter] answers to the request that takes its
    client's counter to [c] at time [now], over the limit. *)
Definition limited_response (windowMs max : Z) (message : string)
    (c : RateLimiter.Counter) (now : Z) : Response :=
  mkResponse 429
    [("RateLimit-Limit", pretty max);
     ("RateLimit-Remaining", pretty (Z.max 0 (max - RateLimiter.hits c)));
     ("RateLimit-Reset",
      pretty (RateLimiter.ceil_seconds (RateLimiter.remaining_ms c now)));
     ("Retry-After", pretty (RateLimiter.ceil_seconds windowMs))]
    (VObj [("error", VStr "Too Many Requests");
           ("message", VStr message);
           ("retryAfter", VNum (RateLimiter.ceil_seconds windowMs))]).

(** The [Retry-After] a limiter would send if it computed it from what is
    left of the window. *)
Definition retry_after_of_remaining (c : RateLimiter.Counter) (now : Z) : string :=
  pretty (RateLimiter.ceil_seconds (RateLimiter.remaining_ms c now)).

(** One client, twenty questions in the first milliseconds of a window. *)
Definition client : string := "203.0.113.9".

Definition twenty_questions : list Z := Z.of_nat <$> seq 0 20.

Definition after_twenty : gmap string RateLimiter.Counter :=
  (RateLimiter.run RateLimiter.askLimiter client twenty_questions ∅).2.

(** The frontend of a user who has switched to the dark theme. *)
Definition dark_app : Frontend.App := Frontend.toggleTheme (Frontend.mount ∅).


(** Two uploads as multer's disk storage names them: a report, and a name
    crafted to climb out of the upload directory. *)
Definition report_pdf : File :=
  mkFile (Gateway.stored_path cfg0 1700000000000 "report.pdf") "report.pdf" 1024.

Definition crafted_pdf : File :=
  mkFile (Gateway.stored_path cfg0 1700000000000 "../../../etc/passwd")
         "../../../etc/passwd" 1024.

Definition upstream_accepts : Upstream :=
  UpOk 200 (VObj [("message", VStr "indexed"); ("session_id", VStr "s-42")]).


(** ** Vocabulary of the further properties *)

(** The world [w] with the operating system's answer to unlinking set. *)
Definition set_unlink_fault (x : option string) (w : World) : World :=
  mkWorld (script w) x (sessions w) (disk w) (streams w) (console w)
          (outbox w) (sent w) (uncaught w).


(** A segment that names a file or a directory: clean, and neither [.]
    nor [..]. *)
Definition proper (s : string) : Prop := clean s ∧ s ≠ "." ∧ s ≠ "..".

(** POST /generate-suggestions of the half-merged gateway
    (src/frontend/src/components/DocumentUploader.jsx, lines 723-734):
    [response.data.suggestions || []] on success, an empty list when the
    call or the reading of its answer throws. *)
Definition generate_suggestions (w : World) : World :=
  let failed msg w :=
    send 200 (VObj [("suggestions", VArr [])])
         (console_log LogError "Suggestion generation failed:" (Some (VStr msg)) w) in
  let '(r, w1) := axios "POST" "http://localhost:5000/suggest-questions"
                        (PJson (VObj [])) (Some 10000) w in
  match r with
  | UpOk _ data =>
      match member data "suggestions" with
      | Some s => send 200 (VObj [("suggestions", js_or s (VArr []))]) w1
      | None => failed (err_message (type_error "Cannot read properties of undefined")) w1
      end
  | UpFail e => failed (err_message e) w1
  end.

(** The request was turned away by the limiter. *)
Definition is_limited (v : RateLimiter.Verdict) : Prop :=
  match v with
  | RateLimiter.Limited _ => True
  | RateLimiter.Next _ => False
  end.

(** The chat and the document list in [localStorage] are those of the
    state. *)
Definition in_sync (a : Frontend.App) : Prop :=
  Frontend.localStorage a !! "chatHistory" = Some (Frontend.SChat (Frontend.chatHistory a))
  ∧ Frontend.localStorage a !! "pdfs" = Some (Frontend.SPdfs (Frontend.pdfs a)).

(** The theme in [localStorage] is the one of the state. *)
Definition theme_in_sync (a : Frontend.App) : Prop :=
  Frontend.persisted_theme a = Some (Frontend.SBool (Frontend.darkMode a)).


Definition sample_compare : JsVal :=
  VObj [("question", VStr "What differs?");
        ("session_ids", VArr [VStr "s1"; VStr "s2"])].

Definition stubborn_disk : World :=
  set_unlink_fault (Some "EPERM") (holding {[file_path report_pdf]} [upstream_accepts]).

(** A decidable fact about sample data, settled by evaluation. *)
Ltac by_computation := apply (bool_decide_unpack _); vm_compute; exact I.


(** * Properties *)

(** ** Worlds: what the primitives leave alone *)

Lemma send_fresh st b w :
  sent w = None → sent (send st b w) = Some (mkResponse st [] (to_json b)).
Proof. intros H. unfold send. by rewrite H. Qed.

Lemma send_error st msg w :
  sent w = None → sent (send st (error_body msg) w) = Some (mkResponse st [] (error_body msg)).
Proof. intros H. unfold send. by rewrite H. Qed.

Lemma send_outbox st b w : outbox (send st b w) = outbox w.
Proof. unfold send. by destruct (sent w). Qed.

Lemma send_sessions st b w : sessions (send st b w) = sessions w.
Proof. unfold send. by destruct (sent w). Qed.

Lemma send_disk st b w : disk (send st b w) = disk w.
Proof. unfold send. by destruct (sent w). Qed.

Lemma send_console st b w : console (send st b w) = console w.
Proof. unfold send. by destruct (sent w). Qed.

Lemma send_streams st b w : streams (send st b w) = streams w.
Proof. unfold send. by destruct (sent w). Qed.

Lemma send_unlink_fault st b w : unlink_fault (send st b w) = unlink_fault w.
Proof. unfold send. by destruct (sent w). Qed.

Lemma axios_outbox m url p t w :
  outbox (axios m url p t w).2 = outbox w ++ [mkCall m url p t].
Proof. unfold axios. by destruct (script w). Qed.

Lemma axios_sent m url p t w : sent (axios m url p t w).2 = sent w.
Proof. unfold axios. by destruct (script w). Qed.

Lemma axios_sessions m url p t w : sessions (axios m url p t w).2 = sessions w.
Proof. unfold axios. by destruct (script w). Qed.

Lemma axios_disk m url p t w : disk (axios m url p t w).2 = disk w.
Proof. unfold axios. by destruct (script w). Qed.

Lemma axios_console m url p t w : console (axios m url p t w).2 = console w.
Proof. unfold axios. by destruct (script w). Qed.

Lemma axios_streams m url p t w : streams (axios m url p t w).2 = streams w.
Proof. unfold axios. by destruct (script w). Qed.

Lemma axios_unlink_fault m url p t w :
  unlink_fault (axios m url p t w).2 = unlink_fault w.
Proof. unfold axios. by destruct (script w). Qed.

Lemma axios_answer m url p t w r rest :
  script w = r :: rest → (axios m url p t w).1 = r.
Proof. intros H. unfold axios. by rewrite H. Qed.

Lemma session_mw_present cookie w : is_Some (sessions (session_mw cookie w) !! cookie).
Proof.
  unfold session_mw. destruct (sessions w !! cookie) eqn:E.
  - by rewrite E.
  - simpl. rewrite lookup_insert_eq. by eexists.
Qed.

Lemma session_mw_known cookie w s :
  sessions w !! cookie = Some s → session_mw cookie w = w.
Proof. intros H. unfold session_mw. by rewrite H. Qed.

Lemma session_mw_other cookie other w :
  other ≠ cookie → sessions (session_mw cookie w) !! other = sessions w !! other.
Proof.
  intros Hne. unfold session_mw. destruct (sessions w !! cookie); [done |].
  simpl. by rewrite lookup_insert_ne.
Qed.

(** ** Validation in the query relays *)

Lemma no_text_falsy v : no_text v → truthy v = false.
Proof. by intros [-> | [-> | ->]]. Qed.

Lemma short_list_no_documents v : short_list 0 v → Gateway.no_documents v = true.
Proof.
  intros [-> | [-> | (l & -> & Hl)]]; [done | done |].
  destruct l; [done | simpl in Hl; lia].
Qed.

Lemma short_list_too_few v : short_list 1 v → Gateway.too_few_documents v = Some true.
Proof.
  intros [-> | [-> | (l & -> & Hl)]]; [done | done |].
  unfold Gateway.too_few_documents, opt_member. simpl. f_equal.
  apply Z.ltb_lt. lia.
Qed.

Lemma long_list_enough l :
  (2 ≤ length l)%nat → Gateway.too_few_documents (VArr l) = Some false.
Proof.
  intros Hl. unfold Gateway.too_few_documents, opt_member. simpl. f_equal.
  apply Z.ltb_ge. lia.
Qed.

(** The session-aware gateway answers 400 to an /ask without a question or
    without documents, and calls nobody. *)
Lemma gateway_ask_validates cfg req_body question session_ids w :
  member req_body "question" = Some question →
  member req_body "session_ids" = Some session_ids →
  sent w = None →
  no_text question ∨ short_list 0 session_ids →
  (∃ msg, sent (Gateway.ask cfg req_body w) = Some (mkResponse 400 [] (error_body msg)))
  ∧ outbox (Gateway.ask cfg req_body w) = outbox w.
Proof.
  intros Hq Hs Hw Hbad. unfold Gateway.ask. rewrite Hq, Hs.
  destruct (truthy question) eqn:Et; simpl.
  - destruct Hbad as [Hbad | Hbad].
    + apply no_text_falsy in Hbad. congruence.
    + rewrite (short_list_no_documents _ Hbad).
      split; [eexists; by apply send_error | apply send_outbox].
  - split; [eexists; by apply send_error | apply send_outbox].
Qed.

(** The session-aware gateway answers 400 to a /compare of fewer than two
    documents, and calls nobody. *)
Lemma gateway_compare_validates cfg req_body session_ids w :
  member req_body "session_ids" = Some session_ids →
  sent w = None →
  short_list 1 session_ids →
  sent (Gateway.compare cfg req_body w)
    = Some (mkResponse 400 [] (error_body "At least 2 documents are required for comparison."))
  ∧ outbox (Gateway.compare cfg req_body w) = outbox w.
Proof.
  intros Hs Hw Hbad. unfold Gateway.compare. rewrite Hs.
  rewrite (short_list_too_few _ Hbad).
  split; [by apply send_error | apply send_outbox].
Qed.

(** With two documents or more it forwards them to the compare endpoint of
    the upstream and relays what the upstream answers. *)
Lemma gateway_compare_relays cfg req_body l w st data rest :
  member req_body "session_ids" = Some (VArr l) →
  (2 ≤ length l)%nat →
  sent w = None →
  script w = UpOk st data :: rest →
  sent (Gateway.compare cfg req_body w) = Some (mkResponse 200 [] (to_json data))
  ∧ outbox (Gateway.compare cfg req_body w)
    = outbox w ++ [mkCall "POST" (Gateway.RAG_URL cfg +:+ "/compare")
                          (PJson (to_json (VObj [("session_ids", VArr l)])))
                          (Some Gateway.COMPARE_TIMEOUT_MS)].
Proof.
  intros Hs Hl Hw Hscript. unfold Gateway.compare. rewrite Hs.
  rewrite (long_list_enough _ Hl).
  unfold axios. rewrite Hscript. simpl. split; [| apply send_outbox].
  by apply send_fresh.
Qed.

(** ** The first gateway forwards whatever it is sent *)

Lemma legacy_ask_always_calls cfg req_body w :
  outbox (Legacy.ask cfg req_body w)
  = outbox w ++ [mkCall "POST" (Legacy.RAG_SERVICE_URL cfg +:+ "/ask")
                        (PJson (to_json req_body)) None].
Proof.
  unfold Legacy.ask, Legacy.forward, axios.
  destruct (script w) as [| [st data | e] rest]; simpl; try done.
  all: by rewrite send_outbox.
Qed.

Lemma legacy_compare_always_calls cfg req_body w :
  outbox (Legacy.compare cfg req_body w)
  = outbox w ++ [mkCall "POST" (Legacy.RAG_SERVICE_URL cfg +:+ "/compare")
                        (PJson (to_json req_body)) None].
Proof.
  unfold Legacy.compare, axios.
  destruct (script w) as [| [st data | e] rest]; simpl.
  2: destruct (member data "comparison").
  all: by rewrite send_outbox.
Qed.

Lemma legacy_upload_keeps_disk cfg file w :
  disk (Legacy.upload cfg file w) = disk w.
Proof.
  unfold Legacy.upload, axios. destruct file as [f |]; [| apply send_disk].
  destruct (script w) as [| [st data | e] rest]; simpl.
  2: destruct (member data "doc_id").
  all: by rewrite send_disk.
Qed.

(** C2, on src/server.js: an /ask with an empty body is not answered 400;
    the body goes to the upstream as it came and the upstream's answer is
    relayed with status 200. *)
Theorem legacy_ask_forwards_empty_body :
  let w := Legacy.ask cfg0 (VObj []) (quiet [UpOk 200 (VObj [("answer", VStr "?")])]) in
  outbox w = [mkCall "POST" "http://localhost:5000/ask" (PJson (VObj [])) None]
  ∧ sent w = Some (mkResponse 200 [] (VObj [("answer", VStr "?")])).
Proof. by vm_compute. Qed.

(** C4, on src/server.js: a /compare of a single document is not answered
    400; it is forwarded to the upstream and the comparison the upstream
    returns is relayed with status 200. *)
Theorem legacy_compare_forwards_single_document :
  let req_body := VObj [("session_ids", VArr [VStr "s1"])] in
  let w := Legacy.compare cfg0 req_body
             (quiet [UpOk 200 (VObj [("comparison", VStr "same")])]) in
  outbox w = [mkCall "POST" "http://localhost:5000/compare" (PJson req_body) None]
  ∧ sent w = Some (mkResponse 200 [] (VObj [("comparison", VStr "same")])).
Proof. by vm_compute. Qed.

(** C1, on src/server.js: after an upload the upstream accepted, the file
    multer stored is still on the disk; the handler has no step that
    removes it. *)
Theorem legacy_upload_leaves_file :
  let stored := "/srv/app/uploads/3f2a9c" in
  let w := Legacy.upload cfg0 (Some (mkFile "uploads/3f2a9c" "report.pdf" 1024))
             (holding {[stored]} [UpOk 200 (VObj [("doc_id", VStr "d1")])]) in
  sent w = Some (mkResponse 200 [] (VObj [("doc_id", VStr "d1")]))
  ∧ stored ∈ disk w.
Proof.
  split; [by vm_compute |].
  rewrite legacy_upload_keeps_disk. simpl. set_solver.
Qed.

(** ** POST /upload of the session-aware gateway: the file goes *)

Lemma upload_try_disk cfg cookie p w :
  disk (Gateway.upload_try cfg cookie p w) = disk w.
Proof.
  unfold Gateway.upload_try, Gateway.upload_failed, axios. simpl.
  destruct (script w) as [| [st data | e] rest]; simpl;
    try destruct (member data "session_id"), (member data "message");
    rewrite ?send_disk; simpl; try done.
  all: by destruct (sessions w !! cookie).
Qed.

Lemma upload_try_unlink_fault cfg cookie p w :
  unlink_fault (Gateway.upload_try cfg cookie p w) = unlink_fault w.
Proof.
  unfold Gateway.upload_try, Gateway.upload_failed, axios. simpl.
  destruct (script w) as [| [st data | e] rest]; simpl;
    try destruct (member data "session_id"), (member data "message");
    rewrite ?send_unlink_fault; simpl; try done.
  all: by destruct (sessions w !! cookie).
Qed.

Lemma upload_try_streams cfg cookie p w :
  streams (Gateway.upload_try cfg cookie p w) = p :: streams w.
Proof.
  unfold Gateway.upload_try, Gateway.upload_failed, axios. simpl.
  destruct (script w) as [| [st data | e] rest]; simpl;
    try destruct (member data "session_id"), (member data "message");
    rewrite ?send_streams; simpl; try done.
  all: by destruct (sessions w !! cookie).
Qed.

Lemma upload_try_answers cfg cookie p w :
  sent w = None → is_Some (sent (Gateway.upload_try cfg cookie p w)).
Proof.
  intros Hw.
  unfold Gateway.upload_try, Gateway.upload_failed, axios. simpl.
  destruct (script w) as [| [st data | e] rest]; simpl;
    try destruct (member data "session_id"), (member data "message").
  all: rewrite send_fresh; [by eexists |]; simpl; try done.
  all: by destruct (sessions w !! cookie).
Qed.

Lemma upload_finally_sent p w : sent (Gateway.upload_finally p w) = sent w.
Proof.
  unfold Gateway.upload_finally, Gateway.unlink_callback, unlink_disk.
  destruct (unlink_result p (destroy p w)) as [[code msg] |]; [| done].
  by destruct (negb (String.eqb code "ENOENT")).
Qed.

Lemma upload_finally_outbox p w : outbox (Gateway.upload_finally p w) = outbox w.
Proof.
  unfold Gateway.upload_finally, Gateway.unlink_callback, unlink_disk.
  destruct (unlink_result p (destroy p w)) as [[code msg] |]; [| done].
  by destruct (negb (String.eqb code "ENOENT")).
Qed.

Lemma upload_finally_sessions p w : sessions (Gateway.upload_finally p w) = sessions w.
Proof.
  unfold Gateway.upload_finally, Gateway.unlink_callback, unlink_disk.
  destruct (unlink_result p (destroy p w)) as [[code msg] |]; [| done].
  by destruct (negb (String.eqb code "ENOENT")).
Qed.

(** When the operating system lets the file go, it is off the disk after
    the [finally], whatever the world the [try] left. *)
Lemma upload_finally_removes p w :
  unlink_fault w = None → p ∉ disk (Gateway.upload_finally p w).
Proof.
  intros Hf. unfold Gateway.upload_finally, Gateway.unlink_callback.
  unfold unlink_disk, unlink_result. simpl. rewrite Hf.
  destruct (decide (p ∈ disk w)) as [Hin | Hout]; simpl; [| done].
  rewrite elem_of_difference, elem_of_singleton. tauto.
Qed.

(** Every request that gets past the two guards of POST /upload leaves the
    handler answered, with its file off the disk and its stream closed:
    on the upstream's answer, on its failure or time-out, and on an
    exception in between, which all end in the same [finally]. *)
Lemma gateway_upload_cleans_up cfg cookie f w :
  file_path f ≠ "" →
  Gateway.escapes (Path.resolve (cwd cfg) (Gateway.UPLOAD_DIR cfg))
                  (Path.resolve (cwd cfg) (file_path f)) = false →
  sent w = None →
  unlink_fault w = None →
  let w' := Gateway.upload cfg cookie (Some f) w in
  is_Some (sent w')
  ∧ (Path.resolve (cwd cfg) (file_path f) ∉ disk w')
  ∧ streams w' = streams w.
Proof.
  intros Hp Hin Hw Hf. unfold Gateway.upload.
  apply String.eqb_neq in Hp. rewrite Hp, Hin. simpl.
  set (p := Path.resolve (cwd cfg) (file_path f)).
  split_and!.
  - rewrite upload_finally_sent. by apply upload_try_answers.
  - apply upload_finally_removes. by rewrite upload_try_unlink_fault.
  - unfold Gateway.upload_finally, Gateway.unlink_callback, unlink_disk.
    destruct (unlink_result p _) as [[code msg] |];
      [destruct (negb (String.eqb code "ENOENT")) |]; simpl.
    all: rewrite upload_try_streams; simpl.
    all: by rewrite String.eqb_refl.
Qed.

(** A deletion the operating system refuses is a line on the console; the
    response is the one the request would have had. *)
Lemma gateway_upload_fault_is_logged cfg cookie f w code :
  file_path f ≠ "" →
  Gateway.escapes (Path.resolve (cwd cfg) (Gateway.UPLOAD_DIR cfg))
                  (Path.resolve (cwd cfg) (file_path f)) = false →
  Path.resolve (cwd cfg) (file_path f) ∈ disk w →
  unlink_fault w = Some code →
  code ≠ "ENOENT" →
  let p := Path.resolve (cwd cfg) (file_path f) in
  let w' := Gateway.upload cfg cookie (Some f) w in
  sent w' = sent (Gateway.upload_try cfg cookie p w)
  ∧ last (console w')
    = Some (mkLog LogWarn ("[/upload] Failed to delete file: " +:+ code +:+ ": unlink " +:+ p) None).
Proof.
  intros Hp Hin Hdisk Hf Hcode. unfold Gateway.upload.
  apply String.eqb_neq in Hp. rewrite Hp, Hin. simpl.
  split; [apply upload_finally_sent |].
  unfold Gateway.upload_finally, Gateway.unlink_callback, unlink_disk, unlink_result.
  simpl. rewrite upload_try_disk, upload_try_unlink_fault, Hf.
  rewrite decide_True by done.
  apply String.eqb_neq in Hcode. rewrite Hcode. simpl.
  by rewrite last_snoc.
Qed.

(** ** Paths: the string test of the guard is containment of segments *)

Lemma split_no_sep s : Forall no_sep (Path.split s).
Proof.
  induction s as [| c rest IH]; simpl.
  - by repeat constructor.
  - destruct (Path.is_sep c) eqn:Ec.
    + by constructor.
    + destruct (Path.split rest) as [| seg segs].
      * by repeat constructor.
      * inversion IH; subst. by constructor.
Qed.

Lemma normalize_clean stack segs :
  Forall clean stack → Forall no_sep segs →
  Forall clean (Path.normalize stack segs).
Proof.
  revert stack. induction segs as [| seg rest IH]; intros stack Hstack Hsegs; simpl.
  - by apply Forall_rev.
  - inversion Hsegs as [| ? ? Hseg Hrest]; subst.
    destruct (String.eqb seg "") eqn:E0; simpl; [by apply IH |].
    destruct (String.eqb seg "."); simpl; [by apply IH |].
    destruct (String.eqb seg "..").
    + apply IH; [| done]. destruct stack; [done |]. by inversion Hstack.
    + apply IH; [| done]. constructor; [| done].
      split; [| done]. by apply String.eqb_neq.
Qed.

Lemma segments_clean cwd p : Forall clean (Path.segments cwd p).
Proof.
  unfold Path.segments. apply normalize_clean; [done |].
  destruct (Path.isAbsolute p); [apply split_no_sep |].
  apply Forall_app. split; apply split_no_sep.
Qed.

Lemma string_prefix_cons c1 s1 c2 s2 :
  String.prefix (String c1 s1) (String c2 s2) = true →
  c1 = c2 ∧ String.prefix s1 s2 = true.
Proof. simpl. by destruct (ascii_dec c1 c2). Qed.

Lemma string_prefix_refl s : String.prefix s s = true.
Proof.
  induction s as [| c rest IH]; [done |].
  simpl. by destruct (ascii_dec c c).
Qed.

Lemma string_app_cons c (a b : string) : String c a +:+ b = String c (a +:+ b).
Proof. reflexivity. Qed.

Lemma string_app_assoc (a b c : string) : (a +:+ b) +:+ c = a +:+ (b +:+ c).
Proof.
  induction a as [| x a IH]; [done |].
  by rewrite !string_app_cons, IH.
Qed.

(** Two segments, each followed by a boundary: if the one run of
    characters leads the other, the segments are the same. *)
Lemma segment_sync x y r s :
  no_sep x → no_sep y → at_boundary s →
  String.prefix (x +:+ String "/" r) (y +:+ s) = true →
  x = y ∧ String.prefix (String "/" r) s = true.
Proof.
  revert y. induction x as [| c x IH]; intros y Hx Hy Hs Hpre.
  - destruct y as [| d y]; [done |].
    simpl in Hy. destruct Hy as [Hd _].
    change ("" +:+ String "/" r) with (String "/" r) in Hpre.
    rewrite string_app_cons in Hpre.
    apply string_prefix_cons in Hpre as [<- _]. done.
  - destruct Hx as [Hc Hx]. rewrite string_app_cons in Hpre.
    destruct y as [| d y].
    + change ("" +:+ s) with s in Hpre. destruct s as [| e s]; [done |].
      apply string_prefix_cons in Hpre as [<- _]. simpl in Hs. congruence.
    + destruct Hy as [_ Hy]. rewrite string_app_cons in Hpre.
      apply string_prefix_cons in Hpre as [<- Hpre].
      destruct (IH y Hx Hy Hs Hpre) as [-> Hrest]. done.
Qed.

Lemma render_segs_cons x a :
  Path.render_segs (x :: a) = String "/" (x +:+ Path.render_segs a).
Proof. reflexivity. Qed.

Lemma render_then_sep a : ∃ r, Path.render_segs a +:+ "/" = String "/" r.
Proof.
  destruct a as [| x a]; [by exists "" |].
  rewrite render_segs_cons, string_app_cons. eauto.
Qed.

Lemma render_segs_boundary segs t :
  at_boundary t → at_boundary (Path.render_segs segs +:+ t).
Proof.
  destruct segs as [| x segs]; [done |].
  by rewrite render_segs_cons, string_app_cons.
Qed.

(** The heart of the guard: on rendered segment lists, a string that
    leads another up to a separator is a list that leads the other. *)
Lemma render_prefix a b t :
  Forall no_sep a → Forall no_sep b → t = "" ∨ t = "/" →
  String.prefix (Path.render_segs a +:+ "/") (Path.render_segs b +:+ t) = true →
  a `prefix_of` b.
Proof.
  revert b. induction a as [| x a IH]; intros b Ha Hb Ht Hpre.
  - apply prefix_nil.
  - inversion Ha as [| ? ? Hx Ha']; subst.
    destruct (render_then_sep a) as [r Hr].
    rewrite render_segs_cons, string_app_cons in Hpre.
    rewrite string_app_assoc, Hr in Hpre.
    destruct b as [| y b].
    + change (Path.render_segs [] +:+ t) with t in Hpre.
      destruct Ht as [-> | ->]; [done |].
      apply string_prefix_cons in Hpre as [_ Hpre].
      destruct x; [done |]. by rewrite string_app_cons in Hpre.
    + inversion Hb as [| ? ? Hy Hb']; subst.
      rewrite render_segs_cons, string_app_cons in Hpre.
      apply string_prefix_cons in Hpre as [_ Hpre].
      rewrite string_app_assoc in Hpre.
      apply segment_sync in Hpre as [-> Hpre]; [| done | done |].
      * apply prefix_cons, (IH b); [done | done | done |]. by rewrite Hr.
      * apply render_segs_boundary. by destruct Ht as [-> | ->].
Qed.

Lemma string_app_nil_r (s : string) : s +:+ "" = s.
Proof.
  induction s as [| c s IH]; [done |].
  by rewrite string_app_cons, IH.
Qed.

Lemma clean_no_sep segs : Forall clean segs → Forall no_sep segs.
Proof. intros H. eapply Forall_impl; [exact H |]. by intros s [_ Hs]. Qed.

(** The guard lets through only what lies in the directory: when the
    string test passes, the segments of the directory lead the segments
    of the path. *)
Lemma guard_passes_within a b :
  Forall clean a → Forall clean b →
  Gateway.escapes (Path.render a) (Path.render b) = false →
  Path.within a b.
Proof.
  intros Ha Hb Hesc. unfold Path.within.
  destruct a as [| x a]; [apply prefix_nil |].
  assert (Hx : x ≠ "") by (inversion Ha as [| ? ? [Hx _] _]; done).
  apply clean_no_sep in Ha. apply clean_no_sep in Hb.
  unfold Gateway.escapes in Hesc.
  apply andb_false_iff in Hesc as [Hpre | Heq].
  - apply negb_false_iff in Hpre. change Path.sep with "/" in Hpre.
    change (Path.render (x :: a)) with (Path.render_segs (x :: a)) in Hpre.
    destruct b as [| y b].
    + change (Path.render []) with (Path.render_segs [""] +:+ "") in Hpre.
      apply render_prefix in Hpre; [| done | by repeat constructor | by left].
      apply prefix_cons_inv_1 in Hpre. done.
    + change (Path.render (y :: b)) with (Path.render_segs (y :: b)) in Hpre.
      rewrite <- (string_app_nil_r (Path.render_segs (y :: b))) in Hpre.
      apply render_prefix in Hpre; [done | done | done | by left].
  - apply negb_false_iff, String.eqb_eq in Heq.
    change (Path.render (x :: a)) with (Path.render_segs (x :: a)) in Heq.
    destruct b as [| y b].
    + rewrite render_segs_cons in Heq.
      change (Path.render []) with (String "/" "") in Heq.
      injection Heq as Heq. destruct x; [done |].
      by rewrite string_app_cons in Heq.
    + change (Path.render (y :: b)) with (Path.render_segs (y :: b)) in Heq.
      apply (render_prefix _ _ "/"); [done | done | by right |].
      rewrite Heq. apply string_prefix_refl.
Qed.

Lemma escapes_outside cwd dir p :
  ¬ Path.within (Path.segments cwd dir) (Path.segments cwd p) →
  Gateway.escapes (Path.resolve cwd dir) (Path.resolve cwd p) = true.
Proof.
  intros Hout. apply not_false_iff_true. intros Hesc. apply Hout.
  apply guard_passes_within; [apply segments_clean | apply segments_clean | done].
Qed.

(** C7: an upload whose stored file resolves to a path outside the upload
    directory is answered 400; no call is made to the upstream, no stream
    is opened on the file, and the session store is the one the session
    middleware left. *)
Theorem gateway_upload_rejects_traversal cfg cookie f w :
  ¬ Path.within (upload_dir_segments cfg) (Path.segments (cwd cfg) (file_path f)) →
  let w' := Gateway.upload_route cfg cookie (Some f) w in
  (∃ msg, sent w' = Some (mkResponse 400 [] (error_body msg)))
  ∧ outbox w' = outbox w
  ∧ streams w' = streams w
  ∧ sessions w' = sessions (session_mw cookie w).
Proof.
  intros Hout. unfold Gateway.upload_route, Gateway.upload.
  set (w0 := session_mw cookie (incoming w)).
  assert (Hsent : sent w0 = None).
  { unfold w0, session_mw, incoming. by destruct (sessions _ !! cookie). }
  assert (Hbox : outbox w0 = outbox w).
  { unfold w0, session_mw, incoming. by destruct (sessions _ !! cookie). }
  assert (Hstr : streams w0 = streams w).
  { unfold w0, session_mw, incoming. by destruct (sessions _ !! cookie). }
  assert (Hses : sessions w0 = sessions (session_mw cookie w)).
  { unfold w0, session_mw, incoming. simpl. by destruct (sessions w !! cookie). }
  destruct (String.eqb (file_path f) ""); simpl.
  - rewrite send_outbox, send_streams, send_sessions.
    split_and!; [eexists; by apply send_error | done ..].
  - rewrite (escapes_outside _ _ _ Hout). simpl.
    rewrite send_outbox, send_streams, send_sessions. simpl.
    split_and!; [eexists; by apply send_error | done ..].
Qed.

(** ** Sessions: binding on upload, clearing, the history of /ask *)

Lemma arriving_sent cookie w : sent (session_mw cookie (incoming w)) = None.
Proof. unfold session_mw, incoming. by destruct (sessions _ !! cookie). Qed.

Lemma arriving_script cookie w : script (session_mw cookie (incoming w)) = script w.
Proof. unfold session_mw, incoming. by destruct (sessions _ !! cookie). Qed.

Lemma arriving_sessions cookie w :
  sessions (session_mw cookie (incoming w)) = sessions (session_mw cookie w).
Proof. unfold session_mw, incoming. simpl. by destruct (sessions w !! cookie). Qed.

Lemma arriving_present cookie w :
  is_Some (sessions (session_mw cookie (incoming w)) !! cookie).
Proof. rewrite arriving_sessions. apply session_mw_present. Qed.

Lemma arriving_other cookie other w :
  other ≠ cookie →
  sessions (session_mw cookie (incoming w)) !! other = sessions w !! other.
Proof. intros Hne. rewrite arriving_sessions. by apply session_mw_other. Qed.

Lemma upload_try_success cfg cookie p w st data sid msg rest s :
  script w = UpOk st data :: rest →
  member data "session_id" = Some sid →
  member data "message" = Some msg →
  sessions w !! cookie = Some s →
  sent w = None →
  sessions (Gateway.upload_try cfg cookie p w)
  = <[cookie := mkSession sid (Some [])]> (sessions w)
  ∧ sent (Gateway.upload_try cfg cookie p w)
    = Some (mkResponse 200 [] (to_json (VObj [("message", msg); ("session_id", sid)]))).
Proof.
  intros Hscript Hsid Hmsg Hs Hw. unfold Gateway.upload_try, axios. simpl.
  rewrite Hscript. simpl. rewrite Hsid, Hmsg, Hs.
  rewrite send_sessions. split; [done |]. by apply send_fresh.
Qed.

(** C8: when the upstream accepts an upload and issues the session id
    [sid], the caller's session holds [sid] and an empty chat history, the
    response is 200 with [sid] as its [session_id], and the sessions of
    the other cookies are as they were. *)
Theorem gateway_upload_binds_session cfg cookie f w st data sid msg rest :
  admitted cfg f →
  script w = UpOk st data :: rest →
  member data "session_id" = Some (VStr sid) →
  member data "message" = Some msg →
  let w' := Gateway.upload_route cfg cookie (Some f) w in
  sessions w' !! cookie = Some (mkSession (VStr sid) (Some []))
  ∧ (∃ b, sent w' = Some (mkResponse 200 [] b)
          ∧ member b "session_id" = Some (VStr sid))
  ∧ ∀ other, other ≠ cookie → sessions w' !! other = sessions w !! other.
Proof.
  intros [Hp Hin] Hscript Hsid Hmsg. unfold Gateway.upload_route, Gateway.upload.
  apply String.eqb_neq in Hp. rewrite Hp, Hin. simpl.
  rewrite upload_finally_sessions, upload_finally_sent.
  destruct (arriving_present cookie w) as [s Hs].
  rewrite <- (arriving_script cookie w) in Hscript.
  destruct (upload_try_success cfg cookie (Path.resolve (cwd cfg) (file_path f))
              _ _ _ _ _ _ _ Hscript Hsid Hmsg Hs (arriving_sent cookie w))
    as [-> ->].
  split_and!.
  - by rewrite lookup_insert_eq.
  - eexists. split; [done |]. simpl. by destruct (to_json msg).
  - intros other Hne. rewrite lookup_insert_ne by done.
    by apply arriving_other.
Qed.

(** C5: /clear-history leaves the caller with an empty chat history and
    the upstream session it had, answers 200 with a message, and leaves
    the session of every other cookie as it was. *)
Theorem clear_history_isolated cookie w :
  let w' := Conflicted.clear_history_route cookie w in
  history_of cookie w' = []
  ∧ (currentSessionId <$> sessions w' !! cookie)
    = Some (default VUndefined (currentSessionId <$> sessions w !! cookie))
  ∧ sent w' = Some (mkResponse 200 [] (VObj [("message", VStr "History cleared")]))
  ∧ ∀ other, other ≠ cookie → sessions w' !! other = sessions w !! other.
Proof.
  unfold Conflicted.clear_history_route, Conflicted.clear_history, history_of.
  set (w0 := session_mw cookie (incoming w)).
  destruct (arriving_present cookie w) as [s Hs]. fold w0 in Hs. rewrite Hs.
  rewrite send_sessions. simpl. split_and!.
  - by rewrite lookup_insert_eq.
  - rewrite lookup_insert_eq. simpl. f_equal.
    unfold w0 in Hs. rewrite arriving_sessions in Hs. unfold session_mw in Hs.
    destruct (sessions w !! cookie) as [s0 |] eqn:E; simpl in *.
    + rewrite E in Hs. by inversion Hs.
    + rewrite lookup_insert_eq in Hs. by inversion Hs.
  - apply send_fresh. simpl. apply arriving_sent.
  - intros other Hne. rewrite lookup_insert_ne by done.
    by apply arriving_other.
Qed.




(** ** What a failing upstream shows the client *)






Lemma gateway_upload_failure_generic cfg cookie f w e rest :
  admitted cfg f →
  sent w = None →
  script w = UpFail e :: rest →
  sent (Gateway.upload cfg cookie (Some f) w)
  = Some (mkResponse 500 [] (error_body "Failed to process file. Please try again."))
  ∧ mkLog LogError "[/upload] File processing failed:" (Some (error_detail e))
    ∈ console (Gateway.upload cfg cookie (Some f) w).
Proof.
  intros [Hp Hin] Hw Hscript. unfold Gateway.upload.
  apply String.eqb_neq in Hp. rewrite Hp, Hin. simpl.
  rewrite upload_finally_sent.
  unfold Gateway.upload_finally, Gateway.unlink_callback, unlink_disk.
  unfold Gateway.upload_try, Gateway.upload_failed, axios. simpl.
  rewrite Hscript. split; [by apply send_error |].
  destruct (unlink_result _ _) as [[code msg] |];
    [destruct (negb (String.eqb code "ENOENT")) |]; simpl.
  all: rewrite ?send_console; simpl; set_solver.
Qed.

(** C3, on src/server.js: the upstream answers 500 with a body of its
    own.  POST /upload answers 500 "Upload failed" and writes nothing to
    the console: the upstream's error is logged nowhere.  POST /compare
    writes it to the console bare, without the tag of an endpoint. *)
Theorem legacy_upstream_error_not_tagged :
  let w := Legacy.upload cfg0 (Some (mkFile "uploads/3f2a9c" "report.pdf" 1024))
             (holding {["/srv/app/uploads/3f2a9c"]} [upstream_500]) in
  let w' := Legacy.compare cfg0 (VObj [("session_ids", VArr [VStr "s1"; VStr "s2"])])
              (quiet [upstream_500]) in
  sent w = Some (mkResponse 500 [] (error_body "Upload failed"))
  ∧ console w = []
  ∧ sent w' = Some (mkResponse 500 [] (error_body "Error comparing documents"))
  ∧ console w' = [mkLog LogError "" (Some upstream_trace)].
Proof. by vm_compute. Qed.

(** ** The rate limiters *)

Lemma exceeding_in_window opts ip now store c :
  store !! ip = Some c →
  now < RateLimiter.resetTime c →
  RateLimiter.max opts ≤ RateLimiter.hits c →
  RateLimiter.max opts < RateLimiter.hits (RateLimiter.increment opts ip now store).
Proof.
  intros Hc Hnow Hmax. unfold RateLimiter.increment. rewrite Hc.
  destruct (RateLimiter.resetTime c <=? now) eqn:E; [apply Z.leb_le in E; lia |].
  simpl. lia.
Qed.

Lemma limited_response_headers windowMs max message c now :
  let res := limited_response windowMs max message c now in
  Exists (λ h, RateLimiter.is_standard h = true) (headers res)
  ∧ Forall (λ h, RateLimiter.is_legacy h = false) (headers res).
Proof. split; [by left | by repeat constructor]. Qed.

Lemma makeLimiter_headers max msg :
  Gateway.standardHeaders (Gateway.makeLimiter max msg) = true
  ∧ Gateway.legacyHeaders (Gateway.makeLimiter max msg) = false.
Proof. done. Qed.

(** C6, as the code has it: the request that takes a client's count in the
    running window above the maximum of a limiter of [buildLimiter] is
    answered 429; [Retry-After] holds the whole window of the limiter in
    seconds, the body is JSON and carries the message of the limited
    operation and the same number of seconds; the [RateLimit-*] headers
    are there and no [X-RateLimit-*] header is. *)
Theorem build_limiter_rejects windowMs max message ip now store :
  let l := RateLimiter.buildLimiter windowMs max message in
  let c := RateLimiter.increment (RateLimiter.options l) ip now store in
  let res := limited_response windowMs max message c now in
  max < RateLimiter.hits c →
  RateLimiter.rateLimit l ip now store = (RateLimiter.Limited res, <[ip := c]> store)
  ∧ status res = 429
  ∧ RateLimiter.get_header "Retry-After" res
    = Some (pretty (RateLimiter.ceil_seconds windowMs))
  ∧ member (body res) "message" = Some (VStr message)
  ∧ Exists (λ h, RateLimiter.is_standard h = true) (headers res)
  ∧ Forall (λ h, RateLimiter.is_legacy h = false) (headers res).
Proof.
  intros l c res Hover. split_and!; try done.
  - unfold RateLimiter.rateLimit. fold c.
    change (RateLimiter.max (RateLimiter.options l)) with max.
    apply Z.ltb_lt in Hover. by rewrite Hover.
  - by left.
  - by repeat constructor.
Qed.

(** C6 as stated fails: the twenty-first question of a client comes 59
    seconds into the one-minute window; one second of the window is left,
    and [Retry-After] says 60. *)
Lemma ask_limiter_retry_after_not_remaining :
  ∃ res c,
    RateLimiter.rateLimit RateLimiter.askLimiter client 59000 after_twenty
    = (RateLimiter.Limited res, <[client := c]> after_twenty)
    ∧ RateLimiter.remaining_ms c 59000 = 1000
    ∧ RateLimiter.get_header "Retry-After" res = Some "60"
    ∧ RateLimiter.get_header "Retry-After" res ≠ Some (retry_after_of_remaining c 59000).
Proof.
  eexists (limited_response RateLimiter.QUERY_WINDOW_MS RateLimiter.ASK_LIMIT _
             (RateLimiter.mkCounter 21 60000) 59000),
          (RateLimiter.mkCounter 21 60000).
  split_and!; [by vm_compute | done | done | by vm_compute].
Qed.

(** ** The frontend: who writes the theme *)

Lemma clear_history_drops_theme a :
  Frontend.persisted_theme (Frontend.clearHistory a) = None.
Proof.
  unfold Frontend.persisted_theme, Frontend.clearHistory. simpl.
  rewrite !lookup_insert_ne by done. apply lookup_empty.
Qed.

(** Every action but the theme switch and Clear History leaves the
    persisted theme as it is. *)
Lemma step_keeps_theme a act :
  Frontend.toggles_theme act = false →
  Frontend.clears_history act = false →
  Frontend.persisted_theme (Frontend.step a act) = Frontend.persisted_theme a.
Proof.
  intros Ht Hc. unfold Frontend.persisted_theme.
  destruct act as [f | q | reply u | s | reply | reply | reply | |];
    try done; simpl.
  - unfold Frontend.uploadPDF. destruct (Frontend.file a); [| done].
    destruct reply as [[d sid] |]; [| done]. simpl.
    by rewrite lookup_insert_ne.
  - unfold Frontend.askQuestion.
    destruct (_ || _); [done |].
    destruct reply; simpl; by rewrite !lookup_insert_ne.
  - unfold Frontend.summarizePDF.
    destruct (Nat.eqb _ _); [done |].
    destruct reply; simpl; [by rewrite lookup_insert_ne | done].
  - unfold Frontend.compareDocuments.
    destruct (Nat.ltb _ _); [done |]. by destruct reply.
Qed.

Lemma run_keeps_theme acts a :
  Forall (λ act, Frontend.toggles_theme act = false
                 ∧ Frontend.clears_history act = false) acts →
  Frontend.persisted_theme (Frontend.run a acts) = Frontend.persisted_theme a.
Proof.
  revert a. induction acts as [| act acts IH]; intros a Hacts; [done |].
  inversion Hacts as [| ? ? [Ht Hc] Hrest]; subst.
  unfold Frontend.run in *. simpl. rewrite IH by done.
  by apply step_keeps_theme.
Qed.

(** C10, on Clear History: the user has the dark theme, persisted as
    [true]; Clear History toggles nothing, the app stays dark, and the
    persisted theme is gone: the next load reads the light theme. *)
Theorem clear_history_forgets_theme :
  let a := Frontend.step dark_app Frontend.ClearHistory in
  Frontend.toggles_theme Frontend.ClearHistory = false
  ∧ Frontend.persisted_theme dark_app = Some (Frontend.SBool true)
  ∧ Frontend.darkMode a = true
  ∧ Frontend.persisted_theme a = None
  ∧ Frontend.darkMode (Frontend.mount (Frontend.localStorage a)) = false.
Proof. by vm_compute. Qed.

(** ** The theorems at work on sample requests *)

(** The test for "at least 2 documents" on values that are no lists:
    a [length] that is no number is converted before it is compared, a
    string counts its UTF-16 code units. *)
Example too_few_documents_coerces :
  Gateway.too_few_documents (VObj [("length", VNull)]) = Some true
  ∧ Gateway.too_few_documents (VObj [("length", VBool true)]) = Some true
  ∧ Gateway.too_few_documents (VObj [("length", VStr " 0x1 ")]) = Some true
  ∧ Gateway.too_few_documents (VObj [("length", VStr "1.9999999999999999")]) = Some false
  ∧ Gateway.too_few_documents (VObj [("length", VArr [VNum 1])]) = Some true
  ∧ Gateway.too_few_documents (VObj [("length", VObj [])]) = Some false
  ∧ Gateway.too_few_documents (VObj [("length", VObj [("toString", VNull)])]) = None
  ∧ Gateway.too_few_documents (VStr "é") = Some true
  ∧ Gateway.too_few_documents (VStr "ab") = Some false.
Proof. by vm_compute. Qed.

(** A question of one no-break space (U+00A0, the bytes 194 and 160) and
    a space is blank. *)
Example blank_beyond_ascii :
  Frontend.blank (String (ascii_of_nat 194) (String (ascii_of_nat 160) " ")) = true
  ∧ Frontend.blank " x " = false.
Proof. by vm_compute. Qed.

Example upload_dir_of_cfg0 : upload_dir_segments cfg0 = ["srv"; "app"; "uploads"].
Proof. by vm_compute. Qed.

Example report_is_stored_inside :
  file_path report_pdf = "/srv/app/uploads/1700000000000-report.pdf".
Proof. by vm_compute. Qed.

Example crafted_is_stored_outside : file_path crafted_pdf = "/srv/app/etc/passwd".
Proof. by vm_compute. Qed.

Example one_step_up_stays_inside :
  Gateway.stored_path cfg0 1700000000000 "../../x.pdf" = "/srv/app/uploads/x.pdf".
Proof. by vm_compute. Qed.

Lemma gateway_upload_rejects_traversal_witness :
  let w := holding {[file_path crafted_pdf]} [upstream_accepts] in
  let w' := Gateway.upload_route cfg0 "c1" (Some crafted_pdf) w in
  ¬ Path.within (upload_dir_segments cfg0)
                (Path.segments (cwd cfg0) (file_path crafted_pdf))
  ∧ (∃ msg, sent w' = Some (mkResponse 400 [] (error_body msg)))
  ∧ outbox w' = [].
Proof.
  intros w w'.
  assert (Hout : ¬ Path.within (upload_dir_segments cfg0)
                               (Path.segments (cwd cfg0) (file_path crafted_pdf))).
  { vm_compute. intros [k Hk]. discriminate. }
  split; [exact Hout |].
  destruct (gateway_upload_rejects_traversal cfg0 "c1" crafted_pdf w Hout)
    as (Hsent & Hbox & _).
  split; [exact Hsent | exact Hbox].
Defined.

Lemma gateway_upload_binds_session_witness :
  let w := holding {[file_path report_pdf]} [upstream_accepts] in
  let w' := Gateway.upload_route cfg0 "c1" (Some report_pdf) w in
  admitted cfg0 report_pdf
  ∧ sessions w' !! "c1" = Some (mkSession (VStr "s-42") (Some [])).
Proof.
  intros w w'.
  assert (Hadm : admitted cfg0 report_pdf).
  { split; [vm_compute; discriminate | vm_compute; reflexivity]. }
  split; [exact Hadm |].
  exact (proj1 (gateway_upload_binds_session cfg0 "c1" report_pdf w 200 _ "s-42"
                  (VStr "indexed") [] Hadm eq_refl eq_refl eq_refl)).
Defined.


Lemma build_limiter_rejects_witness :
  let c := RateLimiter.mkCounter 21 60000 in
  RateLimiter.ASK_LIMIT
  < RateLimiter.hits (RateLimiter.increment (RateLimiter.options RateLimiter.askLimiter)
                                            client 59000 after_twenty)
  ∧ RateLimiter.get_header "Retry-After"
      (limited_response RateLimiter.QUERY_WINDOW_MS RateLimiter.ASK_LIMIT
         "Query limit reached. You may ask up to 20 questions per minute."
         (RateLimiter.increment (RateLimiter.options RateLimiter.askLimiter)
                                client 59000 after_twenty) 59000)
    = Some (pretty (RateLimiter.ceil_seconds RateLimiter.QUERY_WINDOW_MS)).
Proof.
  intros c.
  assert (Hover : RateLimiter.ASK_LIMIT
                  < RateLimiter.hits
                      (RateLimiter.increment (RateLimiter.options RateLimiter.askLimiter)
                                             client 59000 after_twenty)).
  { vm_compute. reflexivity. }
  split; [exact Hover |].
  destruct (build_limiter_rejects RateLimiter.QUERY_WINDOW_MS RateLimiter.ASK_LIMIT
              "Query limit reached. You may ask up to 20 questions per minute."
              client 59000 after_twenty Hover) as (_ & _ & Hretry & _).
  exact Hretry.
Defined.

(** * Further properties of the code *)

(** ** POST /upload of the session-aware gateway *)

Lemma arriving_unlink_fault cookie w :
  unlink_fault (session_mw cookie (incoming w)) = unlink_fault w.
Proof. unfold session_mw, incoming. by destruct (sessions _ !! cookie). Qed.

Lemma arriving_streams cookie w : streams (session_mw cookie (incoming w)) = streams w.
Proof. unfold session_mw, incoming. by destruct (sessions _ !! cookie). Qed.

Lemma arriving_disk cookie w : disk (session_mw cookie (incoming w)) = disk w.
Proof. unfold session_mw, incoming. by destruct (sessions _ !! cookie). Qed.


Lemma arriving_outbox cookie w : outbox (session_mw cookie (incoming w)) = outbox w.
Proof. unfold session_mw, incoming. by destruct (sessions _ !! cookie). Qed.

(** X1: an upload that gets past the guards of POST /upload is answered
    and leaves nothing behind, however the upstream call ends (answer,
    failure, time-out, a throw in between): when the operating system
    lets the file go, the stored file is off the disk after the request
    and the read stream opened on it is closed. *)
Theorem upload_route_leaves_no_file cfg cookie f w :
  admitted cfg f →
  unlink_fault w = None →
  let w' := Gateway.upload_route cfg cookie (Some f) w in
  is_Some (sent w')
  ∧ (Path.resolve (cwd cfg) (file_path f) ∉ disk w')
  ∧ streams w' = streams w.
Proof.
  intros [Hp Hin] Hf w'. unfold w', Gateway.upload_route.
  destruct (gateway_upload_cleans_up cfg cookie f (session_mw cookie (incoming w)))
    as (H1 & H2 & H3); try done.
  - apply arriving_sent.
  - by rewrite arriving_unlink_fault.
  - split_and!; [done | done |]. by rewrite H3, arriving_streams.
Qed.

Lemma upload_try_sent_fault cfg cookie p x w :
  sent (Gateway.upload_try cfg cookie p (set_unlink_fault x w))
  = sent (Gateway.upload_try cfg cookie p w).
Proof.
  unfold Gateway.upload_try, Gateway.upload_failed, axios. simpl.
  destruct (script w) as [| [st data | e] rest]; simpl;
    try destruct (member data "session_id"), (member data "message");
    destruct (sessions w !! cookie); unfold send; simpl;
    destruct (sent w); simpl; done.
Qed.

(** X2: when the operating system refuses to delete the stored file (an
    error other than ENOENT), the client gets the response it would have
    got without the fault; the last line of the console is the warning
    "[/upload] Failed to delete file: ..." and the file is still on the
    disk. *)
Theorem upload_route_deletion_fault cfg cookie f w code :
  admitted cfg f →
  Path.resolve (cwd cfg) (file_path f) ∈ disk w →
  unlink_fault w = Some code →
  code ≠ "ENOENT" →
  let p := Path.resolve (cwd cfg) (file_path f) in
  let w' := Gateway.upload_route cfg cookie (Some f) w in
  sent w' = sent (Gateway.upload_route cfg cookie (Some f) (set_unlink_fault None w))
  ∧ last (console w')
    = Some (mkLog LogWarn ("[/upload] Failed to delete file: " +:+ code +:+ ": unlink " +:+ p) None)
  ∧ p ∈ disk w'.
Proof.
  intros Hadm Hdisk Hf Hcode p w'. unfold w', Gateway.upload_route.
  set (w0 := session_mw cookie (incoming w)).
  destruct (gateway_upload_fault_is_logged cfg cookie f w0 code) as [H1 H2]; try done.
  - by destruct Hadm.
  - by destruct Hadm.
  - unfold w0. by rewrite arriving_disk.
  - unfold w0. by rewrite arriving_unlink_fault.
  - split_and!; [| done |].
    + rewrite H1. destruct Hadm as [Hp Hin]. unfold Gateway.upload.
      apply String.eqb_neq in Hp. rewrite Hp, Hin. simpl.
      rewrite upload_finally_sent.
      replace (session_mw cookie (incoming (set_unlink_fault None w)))
        with (set_unlink_fault None w0).
      * by rewrite upload_try_sent_fault.
      * unfold w0, session_mw, incoming. simpl. by destruct (sessions w !! cookie).
    + destruct Hadm as [Hp Hin]. unfold Gateway.upload.
      apply String.eqb_neq in Hp. rewrite Hp, Hin. simpl.
      unfold Gateway.upload_finally, Gateway.unlink_callback, unlink_disk, unlink_result.
      simpl. rewrite upload_try_disk, upload_try_unlink_fault.
      unfold w0. rewrite arriving_disk, arriving_unlink_fault, Hf.
      rewrite decide_True by done.
      apply String.eqb_neq in Hcode. rewrite Hcode. simpl.
      by rewrite upload_try_disk, arriving_disk.
Qed.



Lemma upload_try_sessions_other cfg cookie p w other :
  other ≠ cookie →
  sessions (Gateway.upload_try cfg cookie p w) !! other = sessions w !! other.
Proof.
  intros Hne. unfold Gateway.upload_try, Gateway.upload_failed, axios. simpl.
  destruct (script w) as [| [st data | e] rest]; simpl;
    try destruct (member data "session_id"), (member data "message");
    rewrite send_sessions; simpl; try done.
  destruct (sessions w !! cookie); simpl; [| done].
  by rewrite lookup_insert_ne.
Qed.



(** X4: whatever becomes of an upload, the sessions of the other cookies
    are what they were: the store without the caller's entry is unchanged. *)
Theorem upload_route_other_sessions cfg cookie file w :
  delete cookie (sessions (Gateway.upload_route cfg cookie file w))
  = delete cookie (sessions w).
Proof.
  apply map_eq. intros other. destruct (decide (other = cookie)) as [-> | Hne].
  { by rewrite !lookup_delete_eq. }
  rewrite !lookup_delete_ne by done.
  unfold Gateway.upload_route, Gateway.upload.
  set (w0 := session_mw cookie (incoming w)).
  assert (H0 : sessions w0 !! other = sessions w !! other)
    by (by apply arriving_other).
  destruct file as [f |]; [| by rewrite send_sessions].
  destruct (String.eqb (file_path f) ""); [by rewrite send_sessions |].
  destruct (Gateway.escapes _ _); [by rewrite send_sessions |].
  rewrite upload_finally_sessions, upload_try_sessions_other by done. done.
Qed.

(** ** The query relays of the session-aware gateway *)

(** X5: an /ask without a question or without documents is answered 400
    and nothing else happens; the question is looked at first, so a
    request that lacks both is told that the question is required. *)
Theorem ask_rejects_incomplete cfg req_body question session_ids w :
  member req_body "question" = Some question →
  member req_body "session_ids" = Some session_ids →
  sent w = None →
  no_text question ∨ short_list 0 session_ids →
  let w' := Gateway.ask cfg req_body w in
  sent w' = Some (mkResponse 400 []
                    (error_body (if truthy question
                                 then "At least one document (session_id) is required."
                                 else "Question is required.")))
  ∧ outbox w' = outbox w
  ∧ console w' = console w.
Proof.
  intros Hq Hs Hw Hbad w'. unfold w', Gateway.ask. rewrite Hq, Hs.
  destruct (truthy question) eqn:Et; simpl.
  - destruct Hbad as [Hbad | Hbad].
    + apply no_text_falsy in Hbad. congruence.
    + rewrite (short_list_no_documents _ Hbad).
      rewrite send_outbox, send_console. by rewrite send_error.
  - rewrite send_outbox, send_console. by rewrite send_error.
Qed.

(** X6: a well-formed /ask makes one call, to the ask endpoint of the
    upstream, with the question and the documents and nothing else of the
    request body, under the three-minute time-out; the upstream's answer
    is relayed as it is, with status 200, and nothing is logged. *)
Theorem ask_relays_answer cfg req_body question session_ids w st data rest :
  well_formed_ask req_body question session_ids →
  sent w = None →
  script w = UpOk st data :: rest →
  let w' := Gateway.ask cfg req_body w in
  sent w' = Some (mkResponse 200 [] (to_json data))
  ∧ outbox w'
    = outbox w ++ [mkCall "POST" (Gateway.RAG_URL cfg +:+ "/ask")
                          (PJson (to_json (VObj [("question", question);
                                                 ("session_ids", session_ids)])))
                          (Some 180000)]
  ∧ console w' = console w.
Proof.
  intros (Hq & Hids & Ht & Hd) Hw Hscript w'. unfold w', Gateway.ask.
  rewrite Hq, Hids, Ht, Hd. simpl. unfold axios. rewrite Hscript.
  rewrite send_outbox, send_console. split_and!; [| done | done].
  by apply send_fresh.
Qed.

(** X7: the relays do not check that [session_ids] is a list.  A truthy
    value without a length (a non-zero number, [true], an object) passes
    the test of /compare for "at least 2 documents" and is forwarded to
    the upstream as the documents to compare. *)
Theorem compare_forwards_non_list cfg req_body v w :
  member req_body "session_ids" = Some v →
  truthy v = true →
  member v "length" = Some VUndefined →
  outbox (Gateway.compare cfg req_body w)
  = outbox w ++ [mkCall "POST" (Gateway.RAG_URL cfg +:+ "/compare")
                        (PJson (to_json (VObj [("session_ids", v)])))
                        (Some Gateway.COMPARE_TIMEOUT_MS)].
Proof.
  intros Hs Ht Hlen. unfold Gateway.compare, Gateway.too_few_documents, opt_member.
  rewrite Hs, Ht, Hlen. simpl. unfold axios.
  destruct (script w) as [| [st data | e] rest]; simpl;
    unfold Gateway.relay_failed; by rewrite send_outbox.
Qed.


(** X9: behind the session middleware the three query relays keep no
    state: whatever the request and the upstream's answer, the session
    store is the one the middleware left (a fresh session for a cookie it
    did not know, nothing else), the disk and the open streams are as they
    were, and the upstream is called once at most. *)
Theorem relay_routes_keep_no_state cfg cookie req_body w :
  let untouched w' :=
    sessions w' = sessions (session_mw cookie w)
    ∧ disk w' = disk w ∧ streams w' = streams w
    ∧ (length (outbox w') ≤ S (length (outbox w)))%nat in
  untouched (Gateway.ask_route cfg cookie req_body w)
  ∧ untouched (Gateway.summarize_route cfg cookie req_body w)
  ∧ untouched (Gateway.compare_route cfg cookie req_body w).
Proof.
  cbv zeta.
  unfold Gateway.ask_route, Gateway.summarize_route, Gateway.compare_route.
  rewrite <- (arriving_sessions cookie w), <- (arriving_disk cookie w),
    <- (arriving_streams cookie w), <- (arriving_outbox cookie w).
  generalize (session_mw cookie (incoming w)). intros w0.
  unfold Gateway.ask, Gateway.summarize, Gateway.compare.
  unfold Gateway.relay_failed, axios.
  split_and!; repeat case_match; simplify_eq; simpl;
    rewrite ?send_sessions, ?send_disk, ?send_streams, ?send_outbox; simpl;
    rewrite ?length_app; simpl; try done; lia.
Qed.

(** X10: /readyz asks the upstream's /healthz once, under the five-second
    time-out; it answers 200 when the upstream answers 200, and 503
    otherwise, with a line on the console. *)
Theorem readyz_reports_upstream cfg w :
  sent w = None →
  let w' := Gateway.readyz cfg w in
  outbox w' = outbox w ++ [mkCall "GET" (Gateway.RAG_URL cfg +:+ "/healthz")
                                  (PJson VUndefined) (Some 5000)]
  ∧ match script w with
    | UpOk 200 _ :: _ => answered 200 w' ∧ console w' = console w
    | _ => answered 503 w' ∧ length (console w') = S (length (console w))
    end.
Proof.
  intros Hw w'. unfold w', Gateway.readyz, axios, answered.
  destruct (script w) as [| [st data | e] rest]; simpl.
  - rewrite send_outbox, send_console, send_fresh by done. simpl.
    rewrite length_app. simpl. split_and!; [done | done | lia].
  - destruct (st =? 200) eqn:E.
    + apply Z.eqb_eq in E. subst.
      by rewrite send_outbox, send_console, send_fresh.
    + rewrite send_outbox, send_console, send_fresh by done. simpl.
      rewrite length_app. simpl.
      apply Z.eqb_neq in E.
      split; [done |]. 
      destruct st as [| p | p]; try (split; [done | lia]).
      repeat (destruct p as [p | p |]; try (split; [done | lia])); done.
  - rewrite send_outbox, send_console, send_fresh by done. simpl.
    rewrite length_app. simpl. split_and!; [done | done | lia].
Qed.

(** ** Paths: resolving twice, and the guard read both ways *)

Lemma normalize_proper stack segs :
  Forall proper stack → Forall no_sep segs →
  Forall proper (Path.normalize stack segs).
Proof.
  revert stack. induction segs as [| seg rest IH]; intros stack Hstack Hsegs; simpl.
  - by apply Forall_rev.
  - inversion Hsegs as [| ? ? Hseg Hrest]; subst.
    destruct (String.eqb seg "") eqn:E0; simpl; [by apply IH |].
    destruct (String.eqb seg ".") eqn:E1; simpl; [by apply IH |].
    destruct (String.eqb seg "..") eqn:E2.
    + apply IH; [| done]. by apply Forall_tail.
    + apply IH; [| done]. constructor; [| done].
      apply String.eqb_neq in E0, E1, E2. by repeat split.
Qed.

Lemma segments_proper cwd p : Forall proper (Path.segments cwd p).
Proof.
  unfold Path.segments. apply normalize_proper; [done |].
  destruct (Path.isAbsolute p); [apply split_no_sep |].
  apply Forall_app. split; apply split_no_sep.
Qed.

Lemma proper_no_sep segs : Forall proper segs → Forall no_sep segs.
Proof. intros H. eapply Forall_impl; [exact H |]. by intros s [[_ Hs] _]. Qed.

Lemma proper_clean segs : Forall proper segs → Forall clean segs.
Proof. intros H. eapply Forall_impl; [exact H |]. by intros s [Hs _]. Qed.

Lemma split_nonempty s : Path.split s ≠ [].
Proof.
  destruct s as [| c rest]; [done |]. simpl.
  destruct (Path.is_sep c); [done |]. by destruct (Path.split rest).
Qed.

Lemma split_app_no_sep x r :
  no_sep x →
  Path.split (x +:+ r)
  = match Path.split r with
    | h :: t => (x +:+ h) :: t
    | [] => [x]
    end.
Proof.
  induction x as [| c x IH]; intros Hx.
  - change ("" +:+ r) with r. pose proof (split_nonempty r).
    by destruct (Path.split r).
  - destruct Hx as [Hc Hx]. rewrite string_app_cons. simpl. rewrite Hc.
    rewrite (IH Hx). by destruct (Path.split r).
Qed.

Lemma split_no_sep_one s : no_sep s → Path.split s = [s].
Proof.
  intros Hs. rewrite <- (string_app_nil_r s) at 1.
  rewrite split_app_no_sep by done. simpl. by rewrite string_app_nil_r.
Qed.

Lemma split_app_sep a b :
  Path.split (a +:+ String "/" b) = Path.split a ++ Path.split b.
Proof.
  induction a as [| c a IH]; [done |].
  rewrite string_app_cons. simpl. rewrite IH.
  destruct (Path.is_sep c); [done |].
  pose proof (split_nonempty a). by destruct (Path.split a).
Qed.

Lemma split_render_segs segs :
  Forall no_sep segs →
  Path.split (Path.render_segs segs)
  = match segs with
    | [] => [""]
    | _ => "" :: segs
    end.
Proof.
  induction segs as [| x r IH]; intros Hsegs; [done |].
  inversion Hsegs as [| ? ? Hx Hr]; subst.
  rewrite render_segs_cons.
  change (Path.split (String "/" (x +:+ Path.render_segs r)))
    with ("" :: Path.split (x +:+ Path.render_segs r)).
  rewrite split_app_no_sep, (IH Hr) by done.
  destruct r; by rewrite string_app_nil_r.
Qed.

Lemma normalize_proper_id stack segs :
  Forall proper segs → Path.normalize stack segs = rev stack ++ segs.
Proof.
  revert stack. induction segs as [| seg rest IH]; intros stack Hsegs; simpl.
  - by rewrite app_nil_r.
  - inversion Hsegs as [| ? ? [[H0 _] [H1 H2]] Hrest]; subst.
    apply String.eqb_neq in H0, H1, H2. rewrite H0, H1, H2. simpl.
    rewrite IH by done. simpl. by rewrite <- app_assoc.
Qed.

Lemma normalize_app stack xs ys :
  Path.normalize stack (xs ++ ys)
  = Path.normalize (rev (Path.normalize stack xs)) ys.
Proof.
  revert stack. induction xs as [| x xs IH]; intros stack; simpl.
  - by rewrite rev_involutive.
  - destruct (String.eqb x "" || String.eqb x "."); [apply IH |].
    destruct (String.eqb x ".."); apply IH.
Qed.

(** The segments of a rendered path are the segments it was rendered
    from. *)
Lemma segments_render cwd segs :
  Forall proper segs → Path.segments cwd (Path.render segs) = segs.
Proof.
  intros Hsegs. unfold Path.segments. destruct segs as [| x r]; [done |].
  change (Path.render (x :: r)) with (Path.render_segs (x :: r)).
  rewrite render_segs_cons. simpl Path.isAbsolute. cbv iota.
  rewrite <- render_segs_cons.
  rewrite split_render_segs by by apply proper_no_sep.
  change (Path.normalize [] ("" :: x :: r)) with (Path.normalize [] (x :: r)).
  by rewrite normalize_proper_id.
Qed.

(** [path.resolve] is idempotent: a resolved path resolves to itself,
    whatever the working directory. *)
Lemma resolve_idempotent cwd cwd' p :
  Path.resolve cwd' (Path.resolve cwd p) = Path.resolve cwd p.
Proof.
  unfold Path.resolve. by rewrite segments_render by apply segments_proper.
Qed.

Lemma string_prefix_app s t u :
  String.prefix (s +:+ t) (s +:+ u) = String.prefix t u.
Proof.
  induction s as [| c s IH]; [done |].
  rewrite !string_app_cons. simpl. by destruct (ascii_dec c c).
Qed.

Lemma render_segs_app a b :
  Path.render_segs (a ++ b) = Path.render_segs a +:+ Path.render_segs b.
Proof.
  induction a as [| x a IH]; [done |].
  simpl app. rewrite !render_segs_cons, IH, string_app_cons.
  by rewrite string_app_assoc.
Qed.

(** The guard lets through all that lies in a directory other than the
    root. *)
Lemma within_passes_guard a b :
  a ≠ [] → Path.within a b →
  Gateway.escapes (Path.render a) (Path.render b) = false.
Proof.
  intros Ha [k ->]. unfold Gateway.escapes.
  destruct k as [| y k].
  - rewrite app_nil_r, String.eqb_refl. apply andb_false_r.
  - destruct a as [| x a]; [done |].
    change (Path.render (x :: a)) with (Path.render_segs (x :: a)).
    change (Path.render ((x :: a) ++ y :: k))
      with (Path.render_segs ((x :: a) ++ y :: k)).
    rewrite render_segs_app, string_prefix_app, render_segs_cons.
    assert (Hpre : String.prefix Path.sep
                     (String "/" (y +:+ Path.render_segs k)) = true).
    { change Path.sep with (String "/" ""). simpl.
      destruct (ascii_dec "/" "/"); [| done]. by destruct (y +:+ _). }
    by rewrite Hpre.
Qed.

Lemma upload_dir_resolved cfg :
  upload_dir_segments cfg
  = Path.segments (cwd cfg) (dirname cfg +:+ String "/" "uploads").
Proof.
  unfold upload_dir_segments, Gateway.UPLOAD_DIR, Path.resolve2.
  change (Path.isAbsolute "uploads") with false. cbv iota.
  unfold Path.resolve. by rewrite segments_render by apply segments_proper.
Qed.

Lemma upload_dir_last cfg :
  ∃ parent, upload_dir_segments cfg = parent ++ ["uploads"].
Proof.
  rewrite upload_dir_resolved. unfold Path.segments.
  rewrite split_app_sep.
  change (Path.split "uploads") with ["uploads"].
  destruct (Path.isAbsolute _).
  - rewrite normalize_app. simpl. eauto.
  - rewrite app_assoc, normalize_app. simpl. eauto.
Qed.

Lemma upload_dir_not_root cfg : upload_dir_segments cfg ≠ [].
Proof.
  destruct (upload_dir_last cfg) as [parent ->].
  by destruct parent.
Qed.

Lemma UPLOAD_DIR_render cfg :
  Gateway.UPLOAD_DIR cfg = Path.render (upload_dir_segments cfg).
Proof.
  rewrite upload_dir_resolved. unfold Gateway.UPLOAD_DIR, Path.resolve2.
  change (Path.isAbsolute "uploads") with false. by cbv iota.
Qed.

(** X11: the upload directory is an absolute path whose last segment is
    [uploads], whatever [__dirname] and the working directory; it is
    already resolved, so the handler's second [path.resolve] of it
    changes nothing. *)
Theorem upload_dir_is_named_uploads cfg :
  ∃ parent,
    Gateway.UPLOAD_DIR cfg = Path.render_segs (parent ++ ["uploads"])
    ∧ Path.resolve (cwd cfg) (Gateway.UPLOAD_DIR cfg) = Gateway.UPLOAD_DIR cfg.
Proof.
  destruct (upload_dir_last cfg) as [parent Hlast]. exists parent. split.
  - rewrite UPLOAD_DIR_render, Hlast. by destruct parent.
  - unfold Path.resolve. fold (upload_dir_segments cfg).
    by rewrite <- UPLOAD_DIR_render.
Qed.

(** X12: the guard of POST /upload is containment, read both ways: a file
    with a path gets past it exactly when the segments of the resolved
    upload directory lead the segments of its resolved path. *)
Theorem upload_guard_is_containment cfg f :
  file_path f ≠ "" →
  admitted cfg f
  ↔ Path.within (upload_dir_segments cfg)
                (Path.segments (cwd cfg) (file_path f)).
Proof.
  intros Hp. unfold admitted, Path.resolve. fold (upload_dir_segments cfg). split.
  - intros [_ Hesc].
    apply guard_passes_within; [| | done]; apply proper_clean.
    + apply segments_proper.
    + apply segments_proper.
  - intros Hin. split; [done |].
    apply within_passes_guard; [apply upload_dir_not_root | done].
Qed.

Lemma join_upload_dir cfg fname :
  proper fname →
  Path.join (Gateway.UPLOAD_DIR cfg) fname
  = Path.render (upload_dir_segments cfg ++ [fname]).
Proof.
  intros Hf. unfold Path.join.
  change (Path.sep +:+ fname) with (String "/" fname).
  rewrite split_app_sep, UPLOAD_DIR_render.
  pose proof (upload_dir_not_root cfg) as Hne.
  pose proof (segments_proper (cwd cfg) (Gateway.UPLOAD_DIR cfg)) as Hu.
  fold (upload_dir_segments cfg) in Hu.
  destruct (upload_dir_segments cfg) as [| x u]; [done |].
  change (Path.render (x :: u)) with (Path.render_segs (x :: u)).
  rewrite split_render_segs by by apply proper_no_sep.
  rewrite split_no_sep_one by (by destruct Hf as [[_ ?] _]).
  change (Path.normalize [] (("" :: x :: u) ++ [fname]))
    with (Path.normalize [] ((x :: u) ++ [fname])).
  rewrite normalize_proper_id; [done |].
  apply Forall_app. split; [done | by constructor].
Qed.

(** X13: a stored file whose name is one proper path segment (no
    separator in it, not empty, not [.] or [..]) always gets past the
    guard of POST /upload: the guard turns away no upload that multer
    stored in the upload directory under such a name. *)
Theorem plain_name_is_admitted cfg fname original sz :
  proper fname →
  admitted cfg (mkFile (Path.join (Gateway.UPLOAD_DIR cfg) fname) original sz).
Proof.
  intros Hf.
  assert (Hall : Forall proper (upload_dir_segments cfg ++ [fname])).
  { apply Forall_app. split; [apply segments_proper | by constructor]. }
  assert (Hpath : Path.join (Gateway.UPLOAD_DIR cfg) fname ≠ "").
  { rewrite join_upload_dir by done.
    pose proof (upload_dir_not_root cfg).
    by destruct (upload_dir_segments cfg). }
  split; [done |]. simpl. unfold Path.resolve.
  fold (upload_dir_segments cfg).
  apply within_passes_guard; [apply upload_dir_not_root |].
  rewrite join_upload_dir, segments_render by done.
  by exists [fname].
Qed.

(** ** The first gateway (src/server.js), beyond the claims *)

(** X14: POST /upload of the first gateway swallows every failure: a
    request without a file, an upstream that fails and an upstream that
    answers without a body are all answered 500 "Upload failed"; nothing
    is written to the console and the disk is not touched.  Otherwise the
    answer is 200 with the [doc_id] of the upstream. *)
Theorem legacy_upload_swallows_errors cfg file w :
  sent w = None →
  let w' := Legacy.upload cfg file w in
  console w' = console w
  ∧ disk w' = disk w
  ∧ (sent w' = Some (mkResponse 500 [] (error_body "Upload failed"))
     ∨ ∃ st data doc_id rest,
         is_Some file
         ∧ script w = UpOk st data :: rest
         ∧ member data "doc_id" = Some doc_id
         ∧ sent w' = Some (mkResponse 200 [] (to_json (VObj [("doc_id", doc_id)])))).
Proof.
  intros Hw w'. unfold w', Legacy.upload, axios.
  destruct file as [f |]; simpl.
  2: { rewrite send_console, send_disk. split_and!; [done | done |].
       left. by apply send_error. }
  destruct (script w) as [| [st data | e] rest]; simpl.
  2: destruct (member data "doc_id") as [doc_id |] eqn:Hd.
  all: rewrite send_console, send_disk; simpl; split_and!; [done | done |].
  2: { right. exists st, data, doc_id, rest. split_and!; try done.
       by apply send_fresh. }
  all: left; by apply send_error.
Qed.

(** X15: POST /ask and POST /summarize of the first gateway have no
    [catch]: when the upstream fails, the handler sends no response, logs
    nothing, and the rejection leaves it uncaught. *)
Theorem legacy_forward_failure_unanswered cfg req_body w e rest :
  sent w = None →
  script w = UpFail e :: rest →
  let unanswered w' :=
    sent w' = None ∧ console w' = console w
    ∧ uncaught w' = uncaught w ++ [err_message e] in
  unanswered (Legacy.ask cfg req_body w)
  ∧ unanswered (Legacy.summarize cfg req_body w).
Proof.
  intros Hw Hscript. cbv zeta.
  unfold Legacy.ask, Legacy.summarize, Legacy.forward, axios.
  rewrite Hscript. simpl. by rewrite Hw.
Qed.

(** X16: POST /compare of the first gateway relays the [comparison] of the
    upstream's answer and nothing else of it; when the upstream fails, or
    answers without a body, it answers 500 "Error comparing documents"
    and writes the upstream's error to the console. *)
Theorem legacy_compare_relays_comparison_only cfg req_body w :
  sent w = None →
  let w' := Legacy.compare cfg req_body w in
  match script w with
  | UpOk _ (VObj fields) :: _ =>
      sent w' = Some (mkResponse 200 []
                        (to_json (VObj [("comparison", assoc "comparison" fields)])))
      ∧ console w' = console w
  | UpOk _ VNull :: _ | UpOk _ VUndefined :: _ =>
      sent w' = Some (mkResponse 500 [] (error_body "Error comparing documents"))
  | UpFail e :: _ =>
      sent w' = Some (mkResponse 500 [] (error_body "Error comparing documents"))
      ∧ console w' = console w ++ [mkLog LogError "" (Some (error_detail e))]
  | _ => True
  end.
Proof.
  intros Hw w'. unfold w', Legacy.compare, axios.
  destruct (script w) as [| [st data | e] rest]; simpl; [done | |].
  - destruct data; simpl; try done.
    all: rewrite ?send_console; unfold send; simpl; by rewrite Hw.
  - rewrite send_console. unfold send. simpl. by rewrite Hw.
Qed.

(** ** The half-merged gateway, beyond the claims *)


Lemma push_other cookie other m w :
  other ≠ cookie →
  sessions (Conflicted.push cookie m w) !! other = sessions w !! other.
Proof.
  intros Hne. unfold Conflicted.push.
  destruct (sessions w !! cookie); [| done]. simpl.
  by rewrite lookup_insert_ne.
Qed.

(** X20: an /ask touches the chat history of its caller only: whatever
    the request and the upstream's answers, the session store without the
    caller's entry is unchanged. *)
Theorem conflicted_ask_other_sessions kept cfg cookie req_body w :
  delete cookie (sessions (Conflicted.ask_route kept cfg cookie req_body w))
  = delete cookie (sessions w).
Proof.
  apply map_eq. intros other. destruct (decide (other = cookie)) as [-> | Hne].
  { by rewrite !lookup_delete_eq. }
  rewrite !lookup_delete_ne by done.
  rewrite <- (arriving_other cookie other w Hne).
  unfold Conflicted.ask_route. set (w0 := session_mw cookie (incoming w)).
  clearbody w0.
  unfold Conflicted.ask, Conflicted.relay_answer, Conflicted.ask_failed, axios.
  repeat case_match; simplify_eq; simpl;
    rewrite ?send_sessions; simpl; rewrite ?send_sessions; simpl;
    rewrite ?push_other by done; simpl; rewrite ?push_other by done; done.
Qed.

Lemma truthy_to_json v :
  truthy v = true → to_json v ≠ VUndefined ∧ truthy (to_json v) = true.
Proof. by destruct v. Qed.

(** X21: /generate-suggestions fails gracefully: whatever the upstream
    does, the answer is 200 with a [suggestions] member that is never
    missing, the empty list when the upstream fails or sends none. *)
Theorem generate_suggestions_always_answers w :
  sent w = None →
  ∃ s, sent (generate_suggestions w)
       = Some (mkResponse 200 [] (VObj [("suggestions", s)]))
       ∧ truthy s = true
       ∧ match script w with
         | UpOk _ (VObj fields) :: _ =>
             truthy (assoc "suggestions" fields) = false → s = VArr []
         | _ => s = VArr []
         end.
Proof.
  intros Hw. unfold generate_suggestions, axios.
  destruct (script w) as [| [st data | e] rest]; simpl.
  1, 3: exists (VArr []); unfold send; simpl; by rewrite Hw.
  destruct (member data "suggestions") as [s |] eqn:Hs.
  - assert (Ht : truthy (js_or s (VArr [])) = true).
    { unfold js_or. by destruct (truthy s) eqn:E. }
    destruct (truthy_to_json _ Ht) as [Hdef Ht'].
    exists (to_json (js_or s (VArr []))). unfold send. simpl. rewrite Hw. simpl.
    split_and!; [| done |].
    + by destruct (to_json (js_or s (VArr []))).
    + destruct data; simpl in Hs; simplify_eq; try done.
      all: try by rewrite String.eqb_sym in *.
      intros Hf. unfold js_or. by rewrite Hf.
  - exists (VArr []). unfold send. simpl. rewrite Hw. split_and!; [done | done |].
    by destruct data.
Qed.

(** ** The handler of the rate limiters *)

Lemma same_name_trans a b c :
  RateLimiter.same_name a b = true →
  RateLimiter.same_name a c = RateLimiter.same_name b c.
Proof.
  unfold RateLimiter.same_name. intros H. apply String.eqb_eq in H. by rewrite H.
Qed.

Lemma lookup_header_set name name' value hs :
  RateLimiter.same_name name name' = true →
  RateLimiter.lookup_header name' (RateLimiter.drop_header name hs ++ [(name, value)])
  = Some value.
Proof.
  intros Hsame. induction hs as [| [k v] hs IH]; simpl.
  - by rewrite Hsame.
  - destruct (RateLimiter.same_name k name) eqn:E; [done |]. simpl.
    assert (RateLimiter.same_name k name' = false) as ->; [| done].
    rewrite <- E. unfold RateLimiter.same_name in *.
    apply String.eqb_eq in Hsame. by rewrite Hsame.
Qed.

Lemma lookup_header_set_other name other value hs :
  RateLimiter.same_name other name = false →
  RateLimiter.lookup_header other (RateLimiter.drop_header name hs ++ [(name, value)])
  = RateLimiter.lookup_header other hs.
Proof.
  intros Hne.
  assert (Hsym : RateLimiter.same_name name other = false).
  { unfold RateLimiter.same_name in *. by rewrite String.eqb_sym. }
  induction hs as [| [k v] hs IH]; simpl.
  - by rewrite Hsym.
  - destruct (RateLimiter.same_name k name) eqn:E.
    + rewrite (same_name_trans k name other E), Hsym. done.
    + simpl. by rewrite IH.
Qed.

Lemma drop_header_none name hs :
  List.filter (λ h, RateLimiter.same_name h.1 name) (RateLimiter.drop_header name hs) = [].
Proof.
  induction hs as [| [k v] hs IH]; [done |]. simpl.
  destruct (RateLimiter.same_name k name) eqn:E; [done |]. simpl. by rewrite E.
Qed.

Lemma ceil_seconds_bounds ms :
  ms ≤ 1000 * RateLimiter.ceil_seconds ms < ms + 1000.
Proof.
  unfold RateLimiter.ceil_seconds.
  pose proof (Z.div_mod (- ms) 1000).
  pose proof (Z.mod_pos_bound (- ms) 1000). lia.
Qed.

(** X22: for a window JavaScript holds exactly, the handler of
    [buildLimiter] answers 429 whatever response is under way; it
    replaces a [Retry-After] that is already there, in whatever case it
    was written, by the window of the limiter in whole seconds, rounded
    up (never less than the window, less than a second more), so that one
    such header is left; it puts the same number in the body; and of the
    other headers it changes none but those Express writes to describe
    the body. *)
Theorem limit_handler_overrides_retry_after message opts res :
  0 ≤ RateLimiter.windowMs opts ≤ 9007199254740991 →
  let res' := RateLimiter.limit_handler message opts res in
  let n := RateLimiter.ceil_seconds (RateLimiter.windowMs opts) in
  status res' = 429
  ∧ RateLimiter.get_header "retry-after" res' = Some (pretty n)
  ∧ length (List.filter (λ h, RateLimiter.same_name h.1 "Retry-After") (headers res'))
    = 1%nat
  ∧ member (body res') "retryAfter" = Some (VNum n)
  ∧ RateLimiter.windowMs opts ≤ 1000 * n < RateLimiter.windowMs opts + 1000
  ∧ ∀ name, RateLimiter.same_name name "Retry-After" = false →
            RateLimiter.express_writes name = false →
            RateLimiter.get_header name res' = RateLimiter.get_header name res.
Proof.
  intros _. cbv zeta. unfold RateLimiter.limit_handler, RateLimiter.json.
  unfold RateLimiter.get_header, RateLimiter.set_header. simpl.
  split_and!; [done | by apply lookup_header_set | | done | apply ceil_seconds_bounds
              | apply ceil_seconds_bounds |].
  - rewrite List.filter_app, drop_header_none. done.
  - intros name Hne _. by apply lookup_header_set_other.
Qed.

Lemma run_in_window l ip times store c :
  store !! ip = Some c →
  Forall (λ t, t < RateLimiter.resetTime c) times →
  times ≠ [] →
  ∃ v store',
    RateLimiter.run l ip times store = (Some v, store')
    ∧ (is_limited v
       ↔ RateLimiter.max (RateLimiter.options l)
         < RateLimiter.hits c + Z.of_nat (length times)).
Proof.
  revert store c. induction times as [| t rest IH]; intros store c Hc Htimes Hne; [done |].
  inversion Htimes as [| ? ? Ht Hrest]; subst.
  assert (Hinc : RateLimiter.increment (RateLimiter.options l) ip t store
                 = RateLimiter.mkCounter (RateLimiter.hits c + 1) (RateLimiter.resetTime c)).
  { unfold RateLimiter.increment. rewrite Hc.
    destruct (RateLimiter.resetTime c <=? t) eqn:E; [apply Z.leb_le in E; lia | done]. }
  simpl RateLimiter.run. unfold RateLimiter.rateLimit. rewrite Hinc. simpl.
  destruct rest as [| t' rest'].
  - destruct (_ <? _) eqn:E; do 2 eexists; (split; [done |]); simpl.
    + apply Z.ltb_lt in E. split; [lia | done].
    + apply Z.ltb_ge in E. split; [done | lia].
  - destruct (_ <? _); simpl.
    all: edestruct (IH (<[ip := RateLimiter.mkCounter (RateLimiter.hits c + 1)
                               (RateLimiter.resetTime c)]> store))
      as (v & store' & Hrun & Hv);
      [apply lookup_insert_eq | done | done |].
    all: exists v, store'; split; [done |]; rewrite Hv; simpl;
      rewrite Nat2Z.inj_succ; lia.
Qed.

(** X23: with the fixed-window counter of the limiter, the requests a new
    client sends within one window of its first are let through up to the
    maximum: the last of them is turned away exactly when there are more
    of them than the maximum, as the rate-limit test expects of 21
    questions against a limit of 20. *)
Theorem one_more_than_the_limit l ip store t0 rest :
  store !! ip = None →
  Forall (λ t, t < t0 + RateLimiter.windowMs (RateLimiter.options l)) rest →
  ∃ v store',
    RateLimiter.run l ip (t0 :: rest) store = (Some v, store')
    ∧ (is_limited v
       ↔ RateLimiter.max (RateLimiter.options l) < Z.of_nat (length (t0 :: rest))).
Proof.
  intros Hnew Hrest.
  assert (Hinc : RateLimiter.increment (RateLimiter.options l) ip t0 store
                 = RateLimiter.mkCounter 1 (t0 + RateLimiter.windowMs (RateLimiter.options l))).
  { unfold RateLimiter.increment. by rewrite Hnew. }
  simpl RateLimiter.run. unfold RateLimiter.rateLimit. rewrite Hinc. simpl.
  destruct rest as [| t' rest'].
  - destruct (_ <? _) eqn:E; do 2 eexists; (split; [done |]); simpl.
    + apply Z.ltb_lt in E. split; [lia | done].
    + apply Z.ltb_ge in E. split; [done | lia].
  - destruct (_ <? _); simpl.
    all: edestruct (run_in_window l ip (t' :: rest')
                      (<[ip := RateLimiter.mkCounter 1
                               (t0 + RateLimiter.windowMs (RateLimiter.options l))]> store))
      as (v & store' & Hrun & Hv);
      [apply lookup_insert_eq | done | done |].
    all: exists v, store'; split; [done |]; rewrite Hv; simpl; lia.
Qed.

(** ** The frontend store: reloads, selection, questions *)

Lemma mount_in_sync storage : in_sync (Frontend.mount storage).
Proof.
  unfold in_sync, Frontend.mount. simpl.
  destruct (<[Frontend.THEME_STORAGE_KEY:=_]> storage !! "chatHistory") as [[b | l | l] |],
           (<[Frontend.THEME_STORAGE_KEY:=_]> storage !! "pdfs") as [[b' | l' | l'] |];
    simpl; split; by simplify_map_eq.
Qed.

Lemma mount_theme_in_sync storage : theme_in_sync (Frontend.mount storage).
Proof.
  unfold theme_in_sync, Frontend.persisted_theme, Frontend.mount. simpl.
  destruct (<[Frontend.THEME_STORAGE_KEY:=_]> storage !! "chatHistory") as [[b | l | l] |],
           (<[Frontend.THEME_STORAGE_KEY:=_]> storage !! "pdfs") as [[b' | l' | l'] |];
    simpl; by simplify_map_eq.
Qed.

Lemma step_in_sync a act : in_sync a → in_sync (Frontend.step a act).
Proof.
  intros [Hc Hp]. unfold in_sync.
  destruct act as [f | q | reply u | s | reply | reply | reply | |]; simpl;
    try done.
  - unfold Frontend.uploadPDF. destruct (Frontend.file a); [| done].
    destruct reply as [[d sid] |]; [| done]. simpl. split; by simplify_map_eq.
  - unfold Frontend.askQuestion. destruct (_ || _); [done |].
    destruct reply; simpl; split; by simplify_map_eq.
  - unfold Frontend.summarizePDF. destruct (Nat.eqb _ _); [done |].
    destruct reply; simpl; [| done]. split; by simplify_map_eq.
  - unfold Frontend.compareDocuments. destruct (Nat.ltb _ _); [done |].
    by destruct reply.
  - split; by simplify_map_eq.
Qed.

Lemma run_in_sync acts a : in_sync a → in_sync (Frontend.run a acts).
Proof.
  revert a. induction acts as [| act acts IH]; intros a Ha; [done |].
  unfold Frontend.run in *. simpl. by apply IH, step_in_sync.
Qed.

Lemma step_theme_in_sync a act :
  Frontend.clears_history act = false →
  theme_in_sync a → theme_in_sync (Frontend.step a act).
Proof.
  intros Hc Ha. unfold theme_in_sync in *.
  destruct (Frontend.toggles_theme act) eqn:Et.
  - destruct act; try done. unfold Frontend.persisted_theme. simpl.
    by simplify_map_eq.
  - rewrite step_keeps_theme, Ha by done. f_equal. f_equal.
    destruct act as [f | q | reply u | s | reply | reply | reply | |]; try done; simpl.
    + unfold Frontend.uploadPDF. destruct (Frontend.file a); [| done].
      by destruct reply as [[d sid] |].
    + unfold Frontend.askQuestion. destruct (_ || _); [done |]. by destruct reply.
    + unfold Frontend.summarizePDF. destruct (Nat.eqb _ _); [done |]. by destruct reply.
    + unfold Frontend.compareDocuments. destruct (Nat.ltb _ _); [done |]. by destruct reply.
Qed.

Lemma run_theme_in_sync acts a :
  Forall (λ act, Frontend.clears_history act = false) acts →
  theme_in_sync a → theme_in_sync (Frontend.run a acts).
Proof.
  revert a. induction acts as [| act acts IH]; intros a Hacts Ha; [done |].
  inversion Hacts; subst. unfold Frontend.run in *. simpl.
  apply IH; [done |]. by apply step_theme_in_sync.
Qed.

Lemma mount_restores a :
  in_sync a →
  Frontend.chatHistory (Frontend.mount (Frontend.localStorage a)) = Frontend.chatHistory a
  ∧ Frontend.pdfs (Frontend.mount (Frontend.localStorage a)) = Frontend.pdfs a.
Proof.
  intros [Hc Hp]. unfold Frontend.mount. simpl.
  rewrite !lookup_insert_ne by done. by rewrite Hc, Hp.
Qed.

(** X24: a reload gives back the chat and the document list, whatever the
    user did since the page was first loaded; the selection, the
    comparison, the question being typed and the chosen file are not
    kept. *)
Theorem reload_restores_chat_and_documents storage acts :
  let a := Frontend.run (Frontend.mount storage) acts in
  let b := Frontend.mount (Frontend.localStorage a) in
  Frontend.chatHistory b = Frontend.chatHistory a
  ∧ Frontend.pdfs b = Frontend.pdfs a
  ∧ Frontend.selectedSessions b = []
  ∧ Frontend.comparisonResult b = None
  ∧ Frontend.question b = ""
  ∧ Frontend.file b = None.
Proof.
  intros a b.
  destruct (mount_restores a) as [Hc Hp].
  { apply run_in_sync, mount_in_sync. }
  split_and!; [done | done | | | |].
  all: unfold b, Frontend.mount; simpl; by repeat case_match.
Qed.

(** X25: a reload gives back the theme as long as Clear History was not
    used since the page was first loaded. *)
Theorem reload_restores_theme storage acts :
  Forall (λ act, Frontend.clears_history act = false) acts →
  let a := Frontend.run (Frontend.mount storage) acts in
  Frontend.darkMode (Frontend.mount (Frontend.localStorage a)) = Frontend.darkMode a.
Proof.
  intros Hacts a.
  assert (Ha : theme_in_sync a) by (by apply run_theme_in_sync, mount_theme_in_sync).
  unfold theme_in_sync, Frontend.persisted_theme in Ha.
  unfold Frontend.mount. simpl.
  assert (Hs : Frontend.saved_theme (Frontend.localStorage a) = Frontend.darkMode a).
  { unfold Frontend.saved_theme. by rewrite Ha. }
  rewrite Hs. by repeat case_match.
Qed.

Lemma includes_In x l : Frontend.includes x l = true ↔ In x l.
Proof.
  unfold Frontend.includes. rewrite existsb_exists. split.
  - intros (y & Hy & Heq). apply String.eqb_eq in Heq. by subst.
  - intros Hx. exists x. split; [done | apply String.eqb_refl].
Qed.

Lemma includes_app x l s :
  Frontend.includes x (l ++ [s]) = Frontend.includes x l || String.eqb x s.
Proof.
  unfold Frontend.includes. rewrite existsb_app. simpl. by rewrite orb_false_r.
Qed.

Lemma includes_filter x l s :
  Frontend.includes x (List.filter (λ id, negb (String.eqb id s)) l)
  = Frontend.includes x l && negb (String.eqb x s).
Proof.
  unfold Frontend.includes. induction l as [| y l IH]; [done |]. simpl.
  destruct (String.eqb y s) eqn:Ey; simpl; rewrite IH.
  - apply String.eqb_eq in Ey. subst.
    destruct (String.eqb x s) eqn:Ex; simpl; [| done].
    by rewrite andb_false_r.
  - destruct (String.eqb x y) eqn:Exy; simpl; [| done].
    apply String.eqb_eq in Exy. subst. by rewrite Ey.
Qed.

(** X26: ticking a document flips its selection and no other: after
    [toggleDocSelection s] the document [s] is selected exactly when it
    was not, every other document is selected exactly when it was, and
    the comparison shown is dropped. *)
Theorem toggle_flips_one s a :
  let a' := Frontend.toggleDocSelection s a in
  Frontend.includes s (Frontend.selectedSessions a')
  = negb (Frontend.includes s (Frontend.selectedSessions a))
  ∧ (∀ other, other ≠ s →
       Frontend.includes other (Frontend.selectedSessions a')
       = Frontend.includes other (Frontend.selectedSessions a))
  ∧ Frontend.comparisonResult a' = None.
Proof.
  cbv zeta. unfold Frontend.toggleDocSelection. simpl.
  destruct (Frontend.includes s (Frontend.selectedSessions a)) eqn:E; simpl.
  - split_and!; [| | done].
    + by rewrite includes_filter, E, String.eqb_refl.
    + intros other Hne. rewrite includes_filter.
      apply String.eqb_neq in Hne. rewrite Hne. apply andb_true_r.
  - split_and!; [| | done].
    + by rewrite includes_app, E, String.eqb_refl.
    + intros other Hne. rewrite includes_app.
      apply String.eqb_neq in Hne. rewrite Hne. apply orb_false_r.
Qed.

Lemma step_selection_NoDup a act :
  List.NoDup (Frontend.selectedSessions a) →
  List.NoDup (Frontend.selectedSessions (Frontend.step a act)).
Proof.
  intros Ha.
  destruct act as [f | q | reply u | s | reply | reply | reply | |]; simpl;
    try done.
  - unfold Frontend.uploadPDF. destruct (Frontend.file a); [| done].
    by destruct reply as [[d sid] |].
  - unfold Frontend.toggleDocSelection. simpl.
    destruct (Frontend.includes s (Frontend.selectedSessions a)) eqn:E.
    + by apply List.NoDup_filter.
    + apply NoDup_ListNoDup, NoDup_app. apply NoDup_ListNoDup in Ha.
      split_and!; [done | | apply NoDup_singleton].
      intros x Hx Hs. apply list_elem_of_singleton in Hs. subst.
      apply list_elem_of_In, includes_In in Hx. congruence.
  - unfold Frontend.askQuestion. destruct (_ || _); [done |]. by destruct reply.
  - unfold Frontend.summarizePDF. destruct (Nat.eqb _ _); [done |]. by destruct reply.
  - unfold Frontend.compareDocuments. destruct (Nat.ltb _ _); [done |]. by destruct reply.
  - constructor.
Qed.

(** X27: a document is never selected twice: whatever the user does from
    the first load on, the selection holds no session id more than once. *)
Theorem selection_has_no_duplicates storage acts :
  List.NoDup (Frontend.selectedSessions (Frontend.run (Frontend.mount storage) acts)).
Proof.
  assert (H0 : List.NoDup (Frontend.selectedSessions (Frontend.mount storage))).
  { unfold Frontend.mount. simpl. repeat case_match; constructor. }
  revert H0. generalize (Frontend.mount storage).
  induction acts as [| act acts IH]; intros a Ha; [done |].
  unfold Frontend.run in *. simpl. by apply IH, step_selection_NoDup.
Qed.

(** X28: a question adds two lines to the chat or none.  Without a
    question (blank) or without a selected document nothing happens and
    nothing is sent; otherwise the question is added as the user's line,
    then the answer as the bot's line, or "Error getting answer." when
    the request fails; the question field is emptied and the chat in
    [localStorage] is the chat shown. *)
Theorem ask_adds_two_lines_or_none reply a :
  let a' := Frontend.askQuestion reply a in
  if Frontend.blank (Frontend.question a)
     || Nat.eqb (length (Frontend.selectedSessions a)) 0
  then a' = a
  else
    Frontend.chatHistory a'
    = Frontend.chatHistory a
      ++ [Frontend.mkLine Frontend.speaker_user (Frontend.question a);
          Frontend.mkLine Frontend.speaker_bot
            match reply with
            | Frontend.Ok answer => answer
            | Frontend.Failed => "Error getting answer."
            end]
    ∧ Frontend.question a' = ""
    ∧ Frontend.localStorage a' !! "chatHistory"
      = Some (Frontend.SChat (Frontend.chatHistory a')).
Proof.
  cbv zeta. unfold Frontend.askQuestion.
  destruct (_ || _); [done |].
  destruct reply; simpl; rewrite <- app_assoc; simpl;
    split_and!; try done; by simplify_map_eq.
Qed.

(** ** The further properties at work on sample requests *)


Lemma report_pdf_admitted : admitted cfg0 report_pdf.
Proof. split; [vm_compute; discriminate | vm_compute; reflexivity]. Defined.

Lemma upload_route_leaves_no_file_witness :
  let w := holding {[file_path report_pdf]} [upstream_500] in
  let w' := Gateway.upload_route cfg0 "c1" (Some report_pdf) w in
  admitted cfg0 report_pdf
  ∧ unlink_fault w = None
  ∧ (Path.resolve (cwd cfg0) (file_path report_pdf) ∉ disk w').
Proof.
  intros w w'. split; [exact report_pdf_admitted |]. split; [reflexivity |].
  exact (proj1 (proj2 (upload_route_leaves_no_file cfg0 "c1" report_pdf w
                         report_pdf_admitted eq_refl))).
Defined.

Lemma upload_route_deletion_fault_witness :
  let p := Path.resolve (cwd cfg0) (file_path report_pdf) in
  let w' := Gateway.upload_route cfg0 "c1" (Some report_pdf) stubborn_disk in
  admitted cfg0 report_pdf
  ∧ p ∈ disk stubborn_disk
  ∧ unlink_fault stubborn_disk = Some "EPERM"
  ∧ "EPERM" ≠ "ENOENT"
  ∧ p ∈ disk w'.
Proof.
  intros p w'.
  assert (Hin : p ∈ disk stubborn_disk) by by_computation.
  assert (Hne : "EPERM" ≠ "ENOENT") by discriminate.
  split; [exact report_pdf_admitted |]. split; [exact Hin |].
  split; [reflexivity |]. split; [exact Hne |].
  exact (proj2 (proj2 (upload_route_deletion_fault cfg0 "c1" report_pdf stubborn_disk
                         "EPERM" report_pdf_admitted Hin eq_refl Hne))).
Defined.


Lemma ask_rejects_incomplete_witness :
  let w' := Gateway.ask cfg0 (VObj []) (quiet []) in
  member (VObj []) "question" = Some VUndefined
  ∧ member (VObj []) "session_ids" = Some VUndefined
  ∧ sent (quiet []) = None
  ∧ (no_text VUndefined ∨ short_list 0 VUndefined)
  ∧ sent w' = Some (mkResponse 400 [] (error_body "Question is required.")).
Proof.
  intros w'.
  assert (Hbad : no_text VUndefined ∨ short_list 0 VUndefined) by (left; by left).
  split; [reflexivity |]. split; [reflexivity |]. split; [reflexivity |].
  split; [exact Hbad |].
  exact (proj1 (ask_rejects_incomplete cfg0 (VObj []) VUndefined VUndefined (quiet [])
                  eq_refl eq_refl eq_refl Hbad)).
Defined.

Lemma sample_ask_well_formed :
  well_formed_ask sample_ask (VStr "What is the total?") (VArr [VStr "s1"]).
Proof. repeat split. Defined.

Lemma ask_relays_answer_witness :
  let w := quiet [UpOk 200 (VObj [("answer", VStr "42")])] in
  well_formed_ask sample_ask (VStr "What is the total?") (VArr [VStr "s1"])
  ∧ sent w = None
  ∧ script w = [UpOk 200 (VObj [("answer", VStr "42")])]
  ∧ sent (Gateway.ask cfg0 sample_ask w)
    = Some (mkResponse 200 [] (VObj [("answer", VStr "42")])).
Proof.
  intros w. split; [exact sample_ask_well_formed |].
  split; [reflexivity |]. split; [reflexivity |].
  exact (proj1 (ask_relays_answer cfg0 sample_ask _ _ w 200 _ []
                  sample_ask_well_formed eq_refl eq_refl)).
Defined.

Lemma compare_forwards_non_list_witness :
  let req_body := VObj [("session_ids", VNum 7)] in
  member req_body "session_ids" = Some (VNum 7)
  ∧ truthy (VNum 7) = true
  ∧ member (VNum 7) "length" = Some VUndefined
  ∧ outbox (Gateway.compare cfg0 req_body (quiet []))
    = [mkCall "POST" "http://localhost:5000/compare" (PJson req_body) (Some 180000)].
Proof.
  intros req_body. split; [reflexivity |]. split; [reflexivity |].
  split; [reflexivity |].
  exact (compare_forwards_non_list cfg0 req_body (VNum 7) (quiet [])
           eq_refl eq_refl eq_refl).
Defined.


Lemma readyz_reports_upstream_witness :
  let w := quiet [UpOk 200 (VObj [("status", VStr "healthy")])] in
  sent w = None ∧ answered 200 (Gateway.readyz cfg0 w).
Proof.
  intros w. split; [reflexivity |].
  exact (proj1 (proj2 (readyz_reports_upstream cfg0 w eq_refl))).
Defined.

Lemma upload_guard_is_containment_witness :
  file_path crafted_pdf ≠ ""
  ∧ (admitted cfg0 crafted_pdf
     ↔ Path.within (upload_dir_segments cfg0)
                   (Path.segments (cwd cfg0) (file_path crafted_pdf))).
Proof.
  assert (Hp : file_path crafted_pdf ≠ "") by (vm_compute; discriminate).
  split; [exact Hp |].
  exact (upload_guard_is_containment cfg0 crafted_pdf Hp).
Defined.

Lemma plain_name_is_admitted_witness :
  proper (Gateway.filename 1700000000000 "report.pdf")
  ∧ admitted cfg0 report_pdf.
Proof.
  assert (Hf : proper (Gateway.filename 1700000000000 "report.pdf")).
  { vm_compute. repeat split; discriminate. }
  split; [exact Hf |].
  exact (plain_name_is_admitted cfg0 _ "report.pdf" 1024 Hf).
Defined.

Lemma legacy_upload_swallows_errors_witness :
  sent (quiet []) = None
  ∧ console (Legacy.upload cfg0 None (quiet [])) = console (quiet []).
Proof.
  split; [reflexivity |].
  exact (proj1 (legacy_upload_swallows_errors cfg0 None (quiet []) eq_refl)).
Defined.

Lemma legacy_forward_failure_unanswered_witness :
  let w := quiet [upstream_500] in
  sent w = None
  ∧ script w = [upstream_500]
  ∧ sent (Legacy.ask cfg0 sample_ask w) = None.
Proof.
  intros w. split; [reflexivity |]. split; [reflexivity |].
  exact (proj1 (proj1 (legacy_forward_failure_unanswered cfg0 sample_ask w _ []
                         eq_refl eq_refl))).
Defined.

Lemma legacy_compare_relays_comparison_only_witness :
  let w := quiet [UpOk 200 (VObj [("comparison", VStr "same"); ("debug", VStr "x")])] in
  sent w = None
  ∧ sent (Legacy.compare cfg0 sample_compare w)
    = Some (mkResponse 200 [] (VObj [("comparison", VStr "same")])).
Proof.
  intros w. split; [reflexivity |].
  exact (proj1 (legacy_compare_relays_comparison_only cfg0 sample_compare w eq_refl)).
Defined.


Lemma generate_suggestions_always_answers_witness :
  sent (quiet [upstream_500]) = None
  ∧ ∃ s, sent (generate_suggestions (quiet [upstream_500]))
         = Some (mkResponse 200 [] (VObj [("suggestions", s)]))
         ∧ truthy s = true
         ∧ s = VArr [].
Proof.
  split; [reflexivity |].
  exact (generate_suggestions_always_answers (quiet [upstream_500]) eq_refl).
Defined.

Lemma limit_handler_overrides_retry_after_witness :
  let under_way := mkResponse 200 [("retry-after", "1"); ("RateLimit-Limit", "20")]
                              VUndefined in
  let res' := RateLimiter.limit_handler "Query limit reached."
                (RateLimiter.options RateLimiter.askLimiter) under_way in
  0 ≤ RateLimiter.windowMs (RateLimiter.options RateLimiter.askLimiter)
    ≤ 9007199254740991
  ∧ RateLimiter.get_header "retry-after" res' = Some "60"
  ∧ headers res' = [("RateLimit-Limit", "20"); ("Retry-After", "60")].
Proof.
  intros under_way res'.
  assert (Hw : 0 ≤ RateLimiter.windowMs (RateLimiter.options RateLimiter.askLimiter)
               ≤ 9007199254740991) by (vm_compute; split; discriminate).
  split; [exact Hw |].
  split; [| reflexivity].
  exact (proj1 (proj2 (limit_handler_overrides_retry_after "Query limit reached."
                         (RateLimiter.options RateLimiter.askLimiter) under_way Hw))).
Defined.

Lemma one_more_than_the_limit_witness :
  let later := Z.of_nat <$> seq 1 20 in
  (∅ : gmap string RateLimiter.Counter) !! client = None
  ∧ Forall (λ t, t < 0 + RateLimiter.windowMs (RateLimiter.options RateLimiter.askLimiter))
           later
  ∧ ∃ v store',
      RateLimiter.run RateLimiter.askLimiter client (0 :: later) ∅ = (Some v, store')
      ∧ (is_limited v
         ↔ RateLimiter.max (RateLimiter.options RateLimiter.askLimiter)
           < Z.of_nat (length (0 :: later))).
Proof.
  intros later.
  assert (Hin : Forall (λ t, t < 0 + RateLimiter.windowMs
                                       (RateLimiter.options RateLimiter.askLimiter)) later).
  { vm_compute. repeat constructor. }
  split; [reflexivity |]. split; [exact Hin |].
  exact (one_more_than_the_limit RateLimiter.askLimiter client ∅ 0 later eq_refl Hin).
Defined.

Lemma reload_restores_theme_witness :
  let acts := [Frontend.ToggleTheme; Frontend.Ask (Frontend.Ok "42")] in
  let a := Frontend.run (Frontend.mount ∅) acts in
  Forall (λ act, Frontend.clears_history act = false) acts
  ∧ Frontend.darkMode (Frontend.mount (Frontend.localStorage a)) = Frontend.darkMode a.
Proof.
  intros acts a.
  assert (Hacts : Forall (λ act, Frontend.clears_history act = false) acts)
    by (repeat constructor).
  split; [exact Hacts |].
  exact (reload_restores_theme ∅ acts Hacts).
Defined.
